(** * Smart Railway Track Inspection API: the section status engine

    A shallow embedding of [src/main.py] (the FastAPI handlers) over a model
    of the document store they talk to, and the properties of the
    status-transition and fault-accumulation logic.

    Layout: values and documents, the platform primitives the handlers call
    (bson, datetime), the store, the handler monad, the handlers themselves,
    then the theorems. *)

From stdpp Require Import gmap strings list fin_maps pretty.
From Stdlib Require Import ZArith.

Local Open Scope Z_scope.

(** ** Values and documents *)

(** A bson [ObjectId] is twelve bytes; only its identity matters here, so it is
    the number those bytes spell.  A [datetime] is an instant, in microseconds
    since the epoch. *)
Abbreviation ObjectId := N (only parsing).
Abbreviation datetime := Z (only parsing).

(** The Python values the handlers put in, and read from, a document. *)
Inductive value :=
| VNull
| VBool (b : bool)
| VInt (n : Z)
| VStr (s : string)
| VTime (t : datetime)
| VOid (o : ObjectId).

#[global] Instance value_eq_dec : EqDecision value.
Proof. solve_decision. Defined.

(** A document is a Python [dict] with string keys; a collection holds its
    documents under their unique [_id].  Values are stored as they are given:
    the BSON codec, which keeps integers up to 64 bits and datetimes to the
    millisecond, is left out. *)
Abbreviation doc := (gmap string value) (only parsing).
Abbreviation collection := (gmap N (gmap string value)) (only parsing).

(** ** Platform primitives

    What the handlers use from [bson] and [datetime] and from the Python
    runtime: [ObjectId.is_valid], [ObjectId(str)], [str(ObjectId)], the
    generation of a new [ObjectId] on insert (never one already in the
    collection), [datetime.isoformat], [str(datetime)] and [hash]. *)
Class Platform := {
  ObjectId_is_valid : string → bool;
  ObjectId_of_str : string → ObjectId;
  ObjectId_str : ObjectId → string;
  ObjectId_new : gset N → ObjectId;
  ObjectId_new_fresh : ∀ X : gset N, ObjectId_new X ∉ X;
  isoformat : datetime → string;
  datetime_str : datetime → string;
  py_hash : string → Z
}.

(** ** Request models (pydantic) *)

(** [pattern="^(safe|faulty)$"]: validation admits exactly these two strings
    before a handler runs. *)
Inductive Status := safe | faulty.

#[global] Instance Status_eq_dec : EqDecision Status.
Proof. solve_decision. Defined.

Definition status_str (s : Status) : string :=
  match s with safe => "safe" | faulty => "faulty" end.

Module SectionCreate.
Record t := { name : string; color_safe : string; color_faulty : string }.
End SectionCreate.

Module SectionUpdate.
Record t := {
  name : option string;
  status : option Status;
  color_safe : option string;
  color_faulty : option string
}.
End SectionUpdate.

Module MarkPayload.
Record t := { status : Status }.
End MarkPayload.

Module InspectPayload.
Record t := { section_id : string; status : Status; detail : option string }.
End InspectPayload.

Module LoginPayload.
Record t := { name : string; email : string }.
End LoginPayload.

(** ** The document store *)

Record database := {
  tracksection : collection;
  inspection : collection;
  alert : collection;
  user : collection
}.

(** [db["..."]] *)
Inductive collname := Tracksection | Inspection | Alert | User.

Definition db_get (c : collname) (d : database) : collection :=
  match c with
  | Tracksection => tracksection d
  | Inspection => inspection d
  | Alert => alert d
  | User => user d
  end.

Definition db_set (c : collname) (x : collection) (d : database) : database :=
  match c with
  | Tracksection =>
      {| tracksection := x; inspection := inspection d; alert := alert d; user := user d |}
  | Inspection =>
      {| tracksection := tracksection d; inspection := x; alert := alert d; user := user d |}
  | Alert =>
      {| tracksection := tracksection d; inspection := inspection d; alert := x; user := user d |}
  | User =>
      {| tracksection := tracksection d; inspection := inspection d; alert := alert d; user := x |}
  end.

(** The filters the handlers pass to the store. *)
Inductive query :=
| QAll                          (* {} *)
| QId (i : ObjectId)            (* {"_id": i} *)
| QEq (k : string) (v : value)  (* {k: v}, v not None *)
| QGte (k : string) (n : Z).    (* {k: {"$gte": n}} *)

(** A stored document as a query or a read sees it: with its [_id]. *)
Definition with_id (i : ObjectId) (d : doc) : doc := <["_id" := VOid i]> d.

(** [$gte] against a number matches numbers only. *)
Definition matches (q : query) (i : ObjectId) (d : doc) : bool :=
  match q with
  | QAll => true
  | QId j => bool_decide (i = j)
  | QEq k v => bool_decide (with_id i d !! k = Some v)
  | QGte k n =>
      match with_id i d !! k with
      | Some (VInt m) => bool_decide (n ≤ m)
      | _ => false
      end
  end.

(** The first document a filter matches: by the [_id] index, or else by a scan. *)
Definition select (q : query) (c : collection) : option ObjectId :=
  match q with
  | QId i => match c !! i with Some _ => Some i | None => None end
  | _ =>
      (λ hit : nat * (N * gmap string value), hit.2.1)
        <$> list_find (λ kv : N * gmap string value, Is_true (matches q kv.1 kv.2))
              (map_to_list c)
  end.

Definition find_one_in (q : query) (c : collection) : option doc :=
  i ← select q c; with_id i <$> c !! i.

(** [update_one(filter, {"$set": updates})]: the new collection and [matched_count]. *)
Definition update_one_in (q : query) (updates : doc) (c : collection) : collection * Z :=
  match select q c with
  | Some i => (alter (λ d : gmap string value, updates ∪ d) i c, 1)
  | None => (c, 0)
  end.

(** [delete_one(filter)]: the new collection and [deleted_count]. *)
Definition delete_one_in (q : query) (c : collection) : collection * Z :=
  match select q c with
  | Some i => (delete i c, 1)
  | None => (c, 0)
  end.

Definition matching (q : query) (c : collection) : collection :=
  filter (λ kv : N * gmap string value, Is_true (matches q kv.1 kv.2)) c.

Definition count_documents_in (q : query) (c : collection) : Z :=
  Z.of_nat (size (matching q c)).

(** ** The handler monad: the world threaded through a request, and exceptions *)

(** The world a request runs in: the database and the clock, as the readings
    [datetime.now] will return from here on. *)
Record world := { db : database; clock : nat → datetime }.

Inductive exn :=
| HTTPException (status_code : Z) (detail : string)
| TypeError
| KeyError.

#[global] Instance exn_eq_dec : EqDecision exn.
Proof. solve_decision. Defined.

Definition M (A : Type) : Type := world → world * (exn + A).

#[global] Instance M_ret : MRet M := λ A a w, (w, inr a).

#[global] Instance M_bind : MBind M := λ A B k m w,
  match m w with
  | (w', inl e) => (w', inl e)
  | (w', inr a) => k a w'
  end.

Definition raise {A : Type} (e : exn) : M A := λ w, (w, inl e).

(** A computation that touches nothing: its value, or the exception it raises. *)
Definition pure {A : Type} (r : exn + A) : M A := λ w, (w, r).

(** [datetime.now(timezone.utc)] *)
Definition datetime_now : M datetime := λ w,
  ({| db := db w; clock := λ n, clock w (S n) |}, inr (clock w 0%nat)).

Definition find_one (cn : collname) (q : query) : M (option doc) := λ w,
  (w, inr (find_one_in q (db_get cn (db w)))).

Definition update_one (cn : collname) (q : query) (updates : doc) : M Z := λ w,
  let '(c, matched_count) := update_one_in q updates (db_get cn (db w)) in
  ({| db := db_set cn c (db w); clock := clock w |}, inr matched_count).

Definition delete_one (cn : collname) (q : query) : M Z := λ w,
  let '(c, deleted_count) := delete_one_in q (db_get cn (db w)) in
  ({| db := db_set cn c (db w); clock := clock w |}, inr deleted_count).

Definition count_documents (cn : collname) (q : query) : M Z := λ w,
  (w, inr (count_documents_in q (db_get cn (db w)))).

Section Handlers.
Context {P : Platform}.

(** [insert_one(doc)] for a [doc] without [_id], as every call of the
    handlers has it: the driver generates the [_id]; [inserted_id] is returned. *)
Definition insert_one (cn : collname) (d : doc) : M ObjectId := λ w,
  let c := db_get cn (db w) in
  let i := ObjectId_new (dom c) in
  ({| db := db_set cn (<[i := d]> c) (db w); clock := clock w |}, inr i).

(** ** Python helpers *)

(** [str(v)], as an f-string renders a value. *)
Definition py_str (v : value) : string :=
  match v with
  | VNull => "None"
  | VBool true => "True"
  | VBool false => "False"
  | VInt n => pretty n
  | VStr s => s
  | VTime t => datetime_str t
  | VOid o => ObjectId_str o
  end.

(** [v + 1]: an [int] (or a [bool], which Python counts as one) or a [TypeError]. *)
Definition py_add1 (v : value) : exn + value :=
  match v with
  | VInt n => inr (VInt (n + 1))
  | VBool b => inr (VInt (Z.b2z b + 1))
  | _ => inl TypeError
  end.

(** [d.get(k, dflt)] *)
Definition get (d : doc) (k : string) (dflt : value) : value := default dflt (d !! k).

(** An optional string as a Python value. *)
Definition opt_str (o : option string) : value :=
  match o with Some s => VStr s | None => VNull end.

(** [not d], on what [find_one] returned: [None] and the empty [dict] are
    the falsy ones. *)
Definition falsy (o : option doc) : bool :=
  match o with
  | None => true
  | Some d => bool_decide (d = ∅)
  end.

(** [if not section: raise e] *)
Definition require (o : option doc) (e : exn) : M doc :=
  if falsy o then raise e else mret (default ∅ o).

(** [s["id"] = str(s.pop("_id")); return s] *)
Definition rename_id (o : option doc) : M doc :=
  match o with
  | None => raise TypeError
  | Some s =>
      match s !! "_id" with
      | None => raise KeyError
      | Some v => mret (<["id" := VStr (py_str v)]> (delete "_id" s))
      end
  end.

(** ** Helpers of [main.py] *)

Definition oid (id_str : string) : M ObjectId :=
  if ObjectId_is_valid id_str then mret (ObjectId_of_str id_str)
  else raise (HTTPException 400 "Invalid id").

(** ** Sections CRUD *)

Definition create_section (payload : SectionCreate.t) : M doc :=
  now ← datetime_now;
  let doc : doc :=
    {[ "name" := VStr (SectionCreate.name payload);
       "status" := VStr "safe";
       "color_safe" := VStr (SectionCreate.color_safe payload);
       "color_faulty" := VStr (SectionCreate.color_faulty payload);
       "last_check" := VNull;
       "persistent_faults" := VInt 0;
       "created_at" := VTime now;
       "updated_at" := VTime now ]} in
  inserted_id ← insert_one Tracksection doc;
  (* insert_one has put the generated [_id] into the dict it was given *)
  let doc := <["_id" := VOid inserted_id]> doc in
  let doc := <["id" := VStr (ObjectId_str inserted_id)]> doc in
  let doc := delete "_id" doc in
  mret doc.

(** [payload.model_dump(exclude_none=True)] *)
Definition model_dump_exclude_none (payload : SectionUpdate.t) : doc :=
  let put (k : string) (o : option value) (m : doc) : doc :=
    match o with Some v => <[k := v]> m | None => m end in
  put "name" (VStr <$> SectionUpdate.name payload)
    (put "status" (VStr ∘ status_str <$> SectionUpdate.status payload)
      (put "color_safe" (VStr <$> SectionUpdate.color_safe payload)
        (put "color_faulty" (VStr <$> SectionUpdate.color_faulty payload) ∅))).

Definition update_section (section_id : string) (payload : SectionUpdate.t) : M doc :=
  let updates := model_dump_exclude_none payload in
  if bool_decide (updates = ∅) then mret {[ "updated" := VBool false ]} else
  now ← datetime_now;
  let updates := <["updated_at" := VTime now]> updates in
  i ← oid section_id;
  matched_count ← update_one Tracksection (QId i) updates;
  if bool_decide (matched_count = 0) then
    raise (HTTPException 404 "Section not found")
  else
  i ← oid section_id;
  s ← find_one Tracksection (QId i);
  rename_id s.

Definition delete_section (section_id : string) : M doc :=
  i ← oid section_id;
  deleted_count ← delete_one Tracksection (QId i);
  if bool_decide (deleted_count = 0) then
    raise (HTTPException 404 "Section not found")
  else mret {[ "deleted" := VBool true ]}.

Definition mark_section (section_id : string) (payload : MarkPayload.t) : M doc :=
  now ← datetime_now;
  i ← oid section_id;
  section ← find_one Tracksection (QId i);
  section ← require section (HTTPException 404 "Section not found");
  let is_repeat_fault :=
    bool_decide (section !! "status" = Some (VStr "faulty"))
    && bool_decide (MarkPayload.status payload = faulty) in
  last_check ← datetime_now;
  let updates : doc :=
    {[ "status" := VStr (status_str (MarkPayload.status payload));
       "last_check" := VStr (isoformat last_check);
       "updated_at" := VTime now ]} in
  updates ← (if is_repeat_fault then
               n ← pure (py_add1 (get section "persistent_faults" (VInt 0)));
               mret (<["persistent_faults" := n]> updates)
             else mret updates);
  i ← oid section_id;
  result ← update_one Tracksection (QId i) updates;
  (* Create inspection record *)
  inspected_at ← datetime_now;
  let insp : doc :=
    {[ "section_id" := VStr section_id;
       "status" := VStr (status_str (MarkPayload.status payload));
       "detail" := VStr "manual-mark";
       "inspected_at" := VStr (isoformat inspected_at);
       "created_at" := VTime now ]} in
  insert_one Inspection insp;;
  (* Create alert if faulty *)
  (if bool_decide (MarkPayload.status payload = faulty) then
     insert_one Alert
       {[ "section_id" := VStr section_id;
          "message" := VStr ("Fault detected at section "
                             +:+ py_str (get section "name" (VStr "")) +:+ ".");
          "severity" := VStr "high";
          "acknowledged" := VBool false;
          "created_at" := VTime now ]};; mret ()
   else mret ());;
  i ← oid section_id;
  s ← find_one Tracksection (QId i);
  rename_id s.

(** ** Inspections *)

Definition inspect (payload : InspectPayload.t) : M doc :=
  i ← oid (InspectPayload.section_id payload);
  section ← find_one Tracksection (QId i);
  section ← require section (HTTPException 404 "Section not found");
  now ← datetime_now;
  let insp : doc :=
    {[ "section_id" := VStr (InspectPayload.section_id payload);
       "status" := VStr (status_str (InspectPayload.status payload));
       "detail" := opt_str (InspectPayload.detail payload);
       "inspected_at" := VStr (isoformat now);
       "created_at" := VTime now ]} in
  insert_one Inspection insp;;
  (* Update section *)
  let is_repeat_fault :=
    bool_decide (section !! "status" = Some (VStr "faulty"))
    && bool_decide (InspectPayload.status payload = faulty) in
  let updates : doc :=
    {[ "status" := VStr (status_str (InspectPayload.status payload));
       "last_check" := VStr (isoformat now);
       "updated_at" := VTime now ]} in
  updates ← (if is_repeat_fault then
               n ← pure (py_add1 (get section "persistent_faults" (VInt 0)));
               mret (<["persistent_faults" := n]> updates)
             else mret updates);
  i ← oid (InspectPayload.section_id payload);
  update_one Tracksection (QId i) updates;;
  (if bool_decide (InspectPayload.status payload = faulty) then
     insert_one Alert
       {[ "section_id" := VStr (InspectPayload.section_id payload);
          "message" := VStr ("Fault detected at section "
                             +:+ py_str (get section "name" (VStr "")) +:+ " (auto)");
          "severity" := VStr "high";
          "acknowledged" := VBool false;
          "created_at" := VTime now ]};; mret ()
   else mret ());;
  mret {[ "created" := VBool true ]}.

(** ** Alerts *)

Definition ack_alert (alert_id : string) : M doc :=
  i ← oid alert_id;
  matched_count ← update_one Alert (QId i) {[ "acknowledged" := VBool true ]};
  if bool_decide (matched_count = 0) then
    raise (HTTPException 404 "Alert not found")
  else mret {[ "acknowledged" := VBool true ]}.

(** ** Summary *)

Definition summary : M doc :=
  total ← count_documents Tracksection QAll;
  safe ← count_documents Tracksection (QEq "status" (VStr "safe"));
  faulty ← count_documents Tracksection (QEq "status" (VStr "faulty"));
  critical ← count_documents Tracksection (QGte "persistent_faults" 3);
  mret {[ "total" := VInt total; "safe" := VInt safe;
          "faulty" := VInt faulty; "critical" := VInt critical ]}.

(** ** Simple multi-user login *)

Definition login (payload : LoginPayload.t) : M doc :=
  let token := "tok-" +:+ pretty (Z.abs (py_hash (LoginPayload.email payload))) in
  user ← find_one User (QEq "email" (VStr (LoginPayload.email payload)));
  (if falsy user then
     now ← datetime_now;
     insert_one User
       {[ "name" := VStr (LoginPayload.name payload);
          "email" := VStr (LoginPayload.email payload);
          "role" := VStr "viewer";
          "token" := VStr token;
          "created_at" := VTime now ]};; mret ()
   else
     match default ∅ user !! "_id" with
     | Some (VOid i) => update_one User (QId i) {[ "token" := VStr token ]};; mret ()
     | Some v => update_one User (QEq "_id" v) {[ "token" := VStr token ]};; mret ()
     | None => raise KeyError
     end);;
  mret {[ "name" := VStr (LoginPayload.name payload);
          "email" := VStr (LoginPayload.email payload);
          "token" := VStr token ]}.

(** ** The service: one request after another *)

Inductive request :=
| POST_sections (payload : SectionCreate.t)
| PATCH_section (section_id : string) (payload : SectionUpdate.t)
| DELETE_section (section_id : string)
| POST_mark (section_id : string) (payload : MarkPayload.t)
| POST_inspect (payload : InspectPayload.t)
| POST_ack (alert_id : string)
| GET_summary
| POST_login (payload : LoginPayload.t).

Definition route (r : request) : M doc :=
  match r with
  | POST_sections payload => create_section payload
  | PATCH_section section_id payload => update_section section_id payload
  | DELETE_section section_id => delete_section section_id
  | POST_mark section_id payload => mark_section section_id payload
  | POST_inspect payload => inspect payload
  | POST_ack alert_id => ack_alert alert_id
  | GET_summary => summary
  | POST_login payload => login payload
  end.

(** The world after a request, whether it was answered or raised. *)
Definition serve (w : world) (r : request) : world := (route r w).1.

Definition serve_all (w : world) (rs : list request) : world := foldl serve w rs.

(** The two entry points of the specification's [recordObservation]. *)
Inductive entry := via_mark | via_inspect (detail : option string).

Definition observation (e : entry) (section_id : string) (observed : Status) : request :=
  match e with
  | via_mark => POST_mark section_id {| MarkPayload.status := observed |}
  | via_inspect detail =>
      POST_inspect {| InspectPayload.section_id := section_id;
                      InspectPayload.status := observed;
                      InspectPayload.detail := detail |}
  end.

Definition recordObservation (e : entry) (section_id : string) (observed : Status) : M doc :=
  route (observation e section_id observed).

End Handlers.

(** ** A concrete platform, to run the handlers on

    Identifiers are written as decimal digits here; a new identifier is the
    least one not in use. *)
Fixpoint demo_all_digits (s : string) : bool :=
  match s with
  | EmptyString => true
  | String a s' =>
      let n := Ascii.N_of_ascii a in
      bool_decide (48 ≤ n < 58)%N && demo_all_digits s'
  end.

Definition demo_is_valid (s : string) : bool :=
  bool_decide (s ≠ "") && demo_all_digits s.

Fixpoint demo_digits (acc : N) (s : string) : N :=
  match s with
  | EmptyString => acc
  | String a s' => demo_digits (10 * acc + (Ascii.N_of_ascii a - 48))%N s'
  end.

Definition demo : Platform := {|
  ObjectId_is_valid := demo_is_valid;
  ObjectId_of_str := demo_digits 0%N;
  ObjectId_str := pretty;
  ObjectId_new := fresh;
  ObjectId_new_fresh := is_fresh;
  isoformat := λ t, "T" +:+ pretty t;
  datetime_str := pretty;
  py_hash := λ s, Z.of_nat (String.length s)
|}.

Definition empty_db : database :=
  {| tracksection := ∅; inspection := ∅; alert := ∅; user := ∅ |}.

Definition world0 : world := {| db := empty_db; clock := λ n, 1000 + Z.of_nat n |}.

Definition S1 : SectionCreate.t :=
  {| SectionCreate.name := "S1";
     SectionCreate.color_safe := "#16a34a";
     SectionCreate.color_faulty := "#dc2626" |}.

(** One section, ["0"], safe and never observed. *)
Definition world1 : world := serve (P := demo) world0 (POST_sections S1).

(** The same section after a first faulty mark: faulty, its counter still 0,
    one inspection and one alert, ["0"], on record. *)
Definition world2 : world :=
  serve (P := demo) world1 (POST_mark "0" {| MarkPayload.status := faulty |}).

(** ** Vocabulary of the statements *)

Section Vocabulary.
Context {P : Platform}.

(** The world after [k] readings of the clock. *)
Definition tick (k : nat) (w : world) : world :=
  {| db := db w; clock := λ n, clock w (k + n)%nat |}.

(** The counter of a section as Python reads it,
    [section.get("persistent_faults", 0)], where that is a number. *)
Definition persistent_faults_of (d : doc) : Z :=
  match d !! "persistent_faults" with
  | Some (VInt n) => n
  | Some (VBool b) => Z.b2z b
  | _ => 0
  end.

(** The section was already faulty and the observation is faulty again. *)
Definition repeat_fault (d : doc) (observed : Status) : bool :=
  bool_decide (d !! "status" = Some (VStr "faulty")) && bool_decide (observed = faulty).

(** The [$set] document an observation builds for section [d]. *)
Definition observation_updates (d : doc) (observed : Status)
    (now last_check : datetime) : exn + doc :=
  let updates : doc :=
    {[ "status" := VStr (status_str observed);
       "last_check" := VStr (isoformat last_check);
       "updated_at" := VTime now ]} in
  if repeat_fault d observed then
    match py_add1 (get d "persistent_faults" (VInt 0)) with
    | inl e => inl e
    | inr n => inr (<["persistent_faults" := n]> updates)
    end
  else inr updates.

Definition inspection_doc (section_id : string) (observed : Status) (detail : value)
    (inspected_at created_at : datetime) : doc :=
  {[ "section_id" := VStr section_id;
     "status" := VStr (status_str observed);
     "detail" := detail;
     "inspected_at" := VStr (isoformat inspected_at);
     "created_at" := VTime created_at ]}.

Definition alert_doc (section_id : string) (message : string) (created_at : datetime) : doc :=
  {[ "section_id" := VStr section_id;
     "message" := VStr message;
     "severity" := VStr "high";
     "acknowledged" := VBool false;
     "created_at" := VTime created_at ]}.

(** The document [create_section] stores. *)
Definition new_section (payload : SectionCreate.t) (now : datetime) : doc :=
  {[ "name" := VStr (SectionCreate.name payload);
     "status" := VStr "safe";
     "color_safe" := VStr (SectionCreate.color_safe payload);
     "color_faulty" := VStr (SectionCreate.color_faulty payload);
     "last_check" := VNull;
     "persistent_faults" := VInt 0;
     "created_at" := VTime now;
     "updated_at" := VTime now ]}.

(** A collection after [insert_one]. *)
Definition inserted (d : doc) (c : collection) : collection :=
  <[ObjectId_new (dom c) := d]> c.

(** [DELETE /api/sections/{section_id}], the one request that removes a section. *)
Definition is_delete (r : request) : bool :=
  match r with DELETE_section _ => true | _ => false end.

(** The response made of a stored section: [_id] popped, [id] its string. *)
Definition section_json (i : ObjectId) (d : doc) : doc :=
  <["id" := VStr (ObjectId_str i)]> (delete "_id" d).

(** What a request can do to the counter of a section that is in the store:
    delete the section, leave the counter alone, or (a faulty observation of
    this section, found faulty) write its successor. *)
Definition section_step (r : request) (d : doc) (i : ObjectId) (after : option doc) : Prop :=
  match after with
  | None => ∃ section_id, r = DELETE_section section_id ∧ ObjectId_of_str section_id = i
  | Some d' =>
      d' !! "persistent_faults" = d !! "persistent_faults"
      ∨ (d' !! "persistent_faults" = Some (VInt (persistent_faults_of d + 1))
         ∧ d !! "status" = Some (VStr "faulty")
         ∧ ∃ e section_id,
             r = observation e section_id faulty ∧ ObjectId_of_str section_id = i)
  end.

(** The counter of the section is one Python can add to: absent (read as
    0), an [int], or a [bool]. *)
Definition counter_ok (d : doc) : bool :=
  match d !! "persistent_faults" with
  | None | Some (VInt _) | Some (VBool _) => true
  | _ => false
  end.

(** Which reading of the clock, counted from the start of the request,
    becomes [last_check]. *)
Definition last_check_reading (e : entry) : nat :=
  match e with via_mark => 1%nat | via_inspect _ => 0%nat end.

(** The sentence "two faulty observations in a row add exactly one to
    [persistent_faults] and create two inspection records", at one store, one
    section id and one pair of entry points. *)
Definition two_faults_add_one (e1 e2 : entry) (section_id : string) (w : world) : Prop :=
  let w2 := serve_all w [observation e1 section_id faulty; observation e2 section_id faulty] in
  ∀ d : doc,
    tracksection (db w) !! ObjectId_of_str section_id = Some d →
    (∃ d2 : doc,
       tracksection (db w2) !! ObjectId_of_str section_id = Some d2
       ∧ persistent_faults_of d2 = persistent_faults_of d + 1)
    ∧ size (inspection (db w2)) = S (S (size (inspection (db w)))).

(** The sentence "the observation returns the reloaded section", at one call. *)
Definition returns_reloaded_section (e : entry) (section_id : string) (observed : Status)
    (w : world) : Prop :=
  let run := recordObservation e section_id observed w in
  ∃ d' : doc,
    tracksection (db run.1) !! ObjectId_of_str section_id = Some d'
    ∧ run.2 = inr (section_json (ObjectId_of_str section_id) d').

(** The sentence "the patch stamps [updated_at], and fails with NotFound
    where the id names no section", at one call with a well-formed id. *)
Definition stamps_or_not_found (section_id : string) (payload : SectionUpdate.t)
    (w : world) : Prop :=
  let run := update_section section_id payload w in
  match tracksection (db w) !! ObjectId_of_str section_id with
  | Some d =>
      ∃ d' : doc,
        tracksection (db run.1) !! ObjectId_of_str section_id = Some d'
        ∧ d' !! "updated_at" = Some (VTime (clock w 0%nat))
  | None => run.2 = inl (HTTPException 404 "Section not found")
  end.

(** How many documents of a collection satisfy [φ]. *)
Definition count_where (φ : doc → Prop) `{!∀ d, Decision (φ d)} (c : collection) : Z :=
  Z.of_nat (size (filter (λ kv : N * gmap string value, φ kv.2) c)).

(** The payload of a patch that names no field (or only nulls). *)
Definition no_fields : SectionUpdate.t :=
  {| SectionUpdate.name := None; SectionUpdate.status := None;
     SectionUpdate.color_safe := None; SectionUpdate.color_faulty := None |}.

End Vocabulary.

(** Two safe sections and one faulty one that has accumulated three faults. *)
Definition world3 : world :=
  {| db := {| tracksection :=
                {[ 0%N := {[ "name" := VStr "A"; "status" := VStr "safe";
                             "persistent_faults" := VInt 0 ]};
                   1%N := {[ "name" := VStr "B"; "status" := VStr "safe";
                             "persistent_faults" := VInt 0 ]};
                   2%N := {[ "name" := VStr "C"; "status" := VStr "faulty";
                             "persistent_faults" := VInt 3 ]} ]};
              inspection := ∅; alert := ∅; user := ∅ |};
     clock := λ n, 2000 + Z.of_nat n |}.

Definition set_faulty : SectionUpdate.t :=
  {| SectionUpdate.name := None; SectionUpdate.status := Some faulty;
     SectionUpdate.color_safe := None; SectionUpdate.color_faulty := None |}.

Definition mark_faulty_0 : request := POST_mark "0" {| MarkPayload.status := faulty |}.

Definition inspect_faulty_0 : request :=
  POST_inspect {| InspectPayload.section_id := "0";
                  InspectPayload.status := faulty;
                  InspectPayload.detail := None |}.

(** ** Vocabulary of the further properties *)

Section Outcomes.
Context {P : Platform}.

(** [m] raises [e] in [w] and leaves the database as it was. *)
Definition rejects {A : Type} (m : M A) (w : world) (e : exn) : Prop :=
  ∃ w' : world, m w = (w', inl e) ∧ db w' = db w.

(** A field after a [$set]: the new value where the update names the
    field, else the old one. *)
Definition patch_field (new old : option value) : option value :=
  match new with Some v => Some v | None => old end.

(** The keys a patch can write. *)
Definition patch_keys : list string :=
  ["name"; "status"; "color_safe"; "color_faulty"; "updated_at"].

(** The keys an observation can write. *)
Definition observation_keys : list string :=
  ["status"; "last_check"; "updated_at"; "persistent_faults"].

End Outcomes.

Section Records.
Context {P : Platform}.

(** Which reading of the clock becomes the inspection's [inspected_at]. *)
Definition inspected_at_reading (e : entry) : nat :=
  match e with via_mark => 2%nat | via_inspect _ => 0%nat end.

(** The [detail] of the inspection record an entry point writes. *)
Definition detail_of (e : entry) : value :=
  match e with via_mark => VStr "manual-mark" | via_inspect detail => opt_str detail end.

(** The alert message an entry point writes for section [d]. *)
Definition alert_message (e : entry) (d : doc) : string :=
  "Fault detected at section " +:+ py_str (get d "name" (VStr ""))
  +:+ match e with via_mark => "." | via_inspect _ => " (auto)" end.

(** The requests of a run of faulty observations of one section. *)
Definition faulty_run (es : list entry) (section_id : string) : list request :=
  (λ e, observation e section_id faulty) <$> es.

End Records.

Section Users.
Context {P : Platform}.

(** The token [login] issues for an email. *)
Definition login_token (email : string) : string :=
  "tok-" +:+ pretty (Z.abs (py_hash email)).

(** The document [login] stores for a new user. *)
Definition user_doc (payload : LoginPayload.t) (now : datetime) : doc :=
  {[ "name" := VStr (LoginPayload.name payload);
     "email" := VStr (LoginPayload.email payload);
     "role" := VStr "viewer";
     "token" := VStr (login_token (LoginPayload.email payload));
     "created_at" := VTime now ]}.

(** The answer of [login]. *)
Definition login_response (payload : LoginPayload.t) : doc :=
  {[ "name" := VStr (LoginPayload.name payload);
     "email" := VStr (LoginPayload.email payload);
     "token" := VStr (login_token (LoginPayload.email payload)) ]}.

(** Some stored user has this email. *)
Definition known_email (email : string) (users : collection) : Prop :=
  ∃ (i : ObjectId) (u : doc), users !! i = Some u ∧ u !! "email" = Some (VStr email).

End Users.

Section Writes.
Context {P : Platform}.

(** The databases one request can leave behind, starting in world [w]. *)
Inductive writes (w : world) : database → Prop :=
| writes_nothing : writes w (db w)
| writes_section (payload : SectionCreate.t) :
    writes w (db_set Tracksection
                (inserted (new_section payload (clock w 0%nat)) (tracksection (db w))) (db w))
| writes_patch (i : ObjectId) (payload : SectionUpdate.t) (d : doc) :
    tracksection (db w) !! i = Some d →
    writes w (db_set Tracksection
                (<[i := <["updated_at" := VTime (clock w 0%nat)]>
                          (model_dump_exclude_none payload) ∪ d]> (tracksection (db w)))
                (db w))
| writes_deletion (i : ObjectId) :
    writes w (db_set Tracksection (delete i (tracksection (db w))) (db w))
| writes_inspection_only (e : entry) (section_id : string) (st : Status) :
    ObjectId_is_valid section_id = true →
    writes w (db_set Inspection
                (inserted (inspection_doc section_id st (detail_of e)
                             (clock w (inspected_at_reading e)) (clock w 0%nat))
                   (inspection (db w))) (db w))
| writes_observation (e : entry) (section_id : string) (st : Status) (d u : doc) :
    ObjectId_is_valid section_id = true →
    tracksection (db w) !! ObjectId_of_str section_id = Some d →
    observation_updates d st (clock w 0%nat) (clock w (last_check_reading e)) = inr u →
    writes w
      {| tracksection := <[ObjectId_of_str section_id := u ∪ d]> (tracksection (db w));
         inspection :=
           inserted (inspection_doc section_id st (detail_of e)
                       (clock w (inspected_at_reading e)) (clock w 0%nat))
             (inspection (db w));
         alert :=
           (if bool_decide (st = faulty)
            then inserted (alert_doc section_id (alert_message e d) (clock w 0%nat))
                   (alert (db w))
            else alert (db w));
         user := user (db w) |}
| writes_acknowledgement (i : ObjectId) (a : doc) :
    alert (db w) !! i = Some a →
    writes w (db_set Alert
                (<[i := {[ "acknowledged" := VBool true ]} ∪ a]> (alert (db w))) (db w))
| writes_user (payload : LoginPayload.t) :
    ¬ known_email (LoginPayload.email payload) (user (db w)) →
    writes w (db_set User (inserted (user_doc payload (clock w 0%nat)) (user (db w))) (db w))
| writes_token (i : ObjectId) (u : doc) (email : string) :
    user (db w) !! i = Some u →
    u !! "email" = Some (VStr email) →
    writes w (db_set User
                (<[i := {[ "token" := VStr (login_token email) ]} ∪ u]> (user (db w)))
                (db w)).

End Writes.

(** ** The schemas of [schemas.py], as predicates on stored documents *)

(** [str] *)
Definition is_str (o : option value) : Prop := ∃ s : string, o = Some (VStr s).

(** [Optional[str]] *)
Definition is_opt_str (o : option value) : Prop := o = Some VNull ∨ is_str o.

(** [Literal[...]] *)
Definition is_literal (choices : list string) (o : option value) : Prop :=
  ∃ s : string, o = Some (VStr s) ∧ s ∈ choices.

Definition TrackSection_schema (d : doc) : Prop :=
  is_str (d !! "name")
  ∧ is_literal ["safe"; "faulty"] (d !! "status")
  ∧ is_str (d !! "color_safe")
  ∧ is_str (d !! "color_faulty")
  ∧ is_opt_str (d !! "last_check")
  ∧ ∃ n : Z, d !! "persistent_faults" = Some (VInt n) ∧ 0 ≤ n.

Definition Inspection_schema (d : doc) : Prop :=
  is_str (d !! "section_id")
  ∧ is_literal ["safe"; "faulty"] (d !! "status")
  ∧ is_opt_str (d !! "detail")
  ∧ is_opt_str (d !! "inspected_at").

Definition Alert_schema (d : doc) : Prop :=
  is_str (d !! "section_id")
  ∧ is_str (d !! "message")
  ∧ is_literal ["low"; "medium"; "high"; "critical"] (d !! "severity")
  ∧ ∃ b : bool, d !! "acknowledged" = Some (VBool b).

Definition User_schema (d : doc) : Prop :=
  is_str (d !! "name")
  ∧ is_str (d !! "email")
  ∧ is_literal ["viewer"; "operator"; "admin"] (d !! "role")
  ∧ is_opt_str (d !! "token").

(** Every stored document has the shape its schema gives it. *)
Definition conforms (b : database) : Prop :=
  map_Forall (λ _ d, TrackSection_schema d) (tracksection b)
  ∧ map_Forall (λ _ d, Inspection_schema d) (inspection b)
  ∧ map_Forall (λ _ d, Alert_schema d) (alert b)
  ∧ map_Forall (λ _ d, User_schema d) (user b).

(** A section whose counter an outside writer has made a string. *)
Definition world4 : world :=
  {| db := {| tracksection :=
                {[ 0%N := {[ "name" := VStr "A"; "status" := VStr "faulty";
                             "persistent_faults" := VStr "many" ]} ]};
              inspection := ∅; alert := ∅; user := ∅ |};
     clock := λ n, 3000 + Z.of_nat n |}.

(** * Properties *)

Section Properties.
Context {P : Platform}.

Implicit Types (w : world) (d : doc) (i : ObjectId) (st : Status).

(** ** The store *)

Lemma with_id_lookup_ne i d (k : string) : k ≠ "_id" → with_id i d !! k = d !! k.
Proof. intros Hk. unfold with_id. by rewrite lookup_insert_ne. Qed.

Lemma find_one_in_id i (c : collection) : find_one_in (QId i) c = with_id i <$> c !! i.
Proof. unfold find_one_in; simpl. by destruct (c !! i) eqn:E; simpl; rewrite ?E. Qed.

Lemma falsy_with_id i d : falsy (Some (with_id i d)) = false.
Proof.
  unfold falsy, with_id. apply bool_decide_eq_false. intros E.
  apply (f_equal (λ m : gmap string value, m !! "_id")) in E.
  by rewrite lookup_insert_eq, lookup_empty in E.
Qed.

Lemma update_one_in_id_found i (u : doc) (c : collection) d :
  c !! i = Some d → update_one_in (QId i) u c = (<[i := u ∪ d]> c, 1).
Proof.
  intros E. unfold update_one_in; simpl. rewrite E. f_equal.
  apply map_eq; intros j. rewrite lookup_alter, lookup_insert.
  repeat case_decide; subst; try congruence. by rewrite E.
Qed.

Lemma update_one_in_id_missing i (u : doc) (c : collection) :
  c !! i = None → update_one_in (QId i) u c = (c, 0).
Proof. intros E. unfold update_one_in; simpl. by rewrite E. Qed.

Lemma get_with_id i d (k : string) (v : value) :
  k ≠ "_id" → get (with_id i d) k v = get d k v.
Proof. intros Hk. unfold get. by rewrite with_id_lookup_ne. Qed.

Arguments rename_id : simpl never.

Lemma rename_id_with_id i d w :
  rename_id (Some (with_id i d)) w = (w, inr (section_json i d)).
Proof.
  unfold rename_id, with_id, section_json. rewrite lookup_insert_eq. simpl.
  by rewrite delete_insert_eq.
Qed.

Lemma inserted_fresh (d : doc) (c : collection) : c !! ObjectId_new (dom c) = None.
Proof. apply not_elem_of_dom, ObjectId_new_fresh. Qed.

Lemma inserted_lookup_old (d : doc) (c : collection) i x :
  c !! i = Some x → inserted d c !! i = Some x.
Proof.
  intros E. unfold inserted. rewrite lookup_insert_ne; [done|].
  intros <-. by rewrite inserted_fresh in E.
Qed.

Lemma inserted_size (d : doc) (c : collection) : size (inserted d c) = S (size c).
Proof. apply map_size_insert_None, inserted_fresh, d. Qed.

(** ** The fault-accumulation rule *)

Lemma py_add1_counter d (n : value) :
  py_add1 (get d "persistent_faults" (VInt 0)) = inr n →
  n = VInt (persistent_faults_of d + 1).
Proof.
  unfold get, persistent_faults_of.
  destruct (d !! "persistent_faults") as [[]|]; simpl; congruence.
Qed.

Lemma observation_updates_fields d st (now last_check : datetime) (u : doc) :
  observation_updates d st now last_check = inr u →
  u !! "status" = Some (VStr (status_str st))
  ∧ u !! "last_check" = Some (VStr (isoformat last_check))
  ∧ u !! "updated_at" = Some (VTime now)
  ∧ u !! "persistent_faults"
    = (if repeat_fault d st then Some (VInt (persistent_faults_of d + 1)) else None).
Proof.
  unfold observation_updates. destruct (repeat_fault d st).
  - destruct (py_add1 _) as [e|n] eqn:E; [done|]. intros [= <-].
    apply py_add1_counter in E as ->. by rewrite lookup_insert_eq.
  - by intros [= <-].
Qed.

(** ** What one observation does *)

Lemma mark_section_found w (section_id : string) (payload : MarkPayload.t) d :
  ObjectId_is_valid section_id = true →
  tracksection (db w) !! ObjectId_of_str section_id = Some d →
  let i := ObjectId_of_str section_id in
  let st := MarkPayload.status payload in
  mark_section section_id payload w =
    match observation_updates d st (clock w 0%nat) (clock w 1%nat) with
    | inl e => (tick 2 w, inl e)
    | inr u =>
        ({| db := {| tracksection := <[i := u ∪ d]> (tracksection (db w));
                     inspection :=
                       inserted (inspection_doc section_id st (VStr "manual-mark")
                                   (clock w 2%nat) (clock w 0%nat))
                         (inspection (db w));
                     alert :=
                       (if bool_decide (st = faulty) then
                          inserted (alert_doc section_id
                                      ("Fault detected at section "
                                       +:+ py_str (get d "name" (VStr "")) +:+ ".")
                                      (clock w 0%nat))
                            (alert (db w))
                        else alert (db w));
                     user := user (db w) |};
            clock := λ n, clock w (3 + n)%nat |},
         inr (section_json i (u ∪ d)))
    end.
Proof.
  intros Hv Hd i st.
  unfold mark_section, mbind, M_bind, datetime_now, oid. rewrite Hv. simpl.
  rewrite find_one_in_id, Hd. simpl.
  unfold require. rewrite falsy_with_id. simpl.
  rewrite with_id_lookup_ne by done. rewrite !get_with_id by done.
  unfold observation_updates, repeat_fault. fold st.
  destruct (bool_decide (d !! "status" = Some (VStr "faulty")) && bool_decide (st = faulty))
    eqn:Hrep; simpl.
  - destruct (py_add1 (get d "persistent_faults" (VInt 0))) as [e|n]; simpl; [done|].
    unfold update_one; simpl. rewrite (update_one_in_id_found _ _ _ d) by done. simpl.
    apply andb_true_iff in Hrep as [_ Hf]. rewrite Hf. simpl.
    rewrite find_one_in_id, lookup_insert_eq. simpl. by rewrite rename_id_with_id.
  - unfold update_one; simpl. rewrite (update_one_in_id_found _ _ _ d) by done. simpl.
    destruct (bool_decide (st = faulty)); simpl;
      rewrite find_one_in_id, lookup_insert_eq; simpl; by rewrite rename_id_with_id.
Qed.

Lemma mark_section_invalid w (section_id : string) (payload : MarkPayload.t) :
  ObjectId_is_valid section_id = false →
  mark_section section_id payload w = (tick 1 w, inl (HTTPException 400 "Invalid id")).
Proof. intros Hv. unfold mark_section, mbind, M_bind, datetime_now, oid. by rewrite Hv. Qed.

Lemma mark_section_missing w (section_id : string) (payload : MarkPayload.t) :
  ObjectId_is_valid section_id = true →
  tracksection (db w) !! ObjectId_of_str section_id = None →
  mark_section section_id payload w
  = (tick 1 w, inl (HTTPException 404 "Section not found")).
Proof.
  intros Hv Hd. unfold mark_section, mbind, M_bind, datetime_now, oid. rewrite Hv. simpl.
  by rewrite find_one_in_id, Hd.
Qed.

Lemma inspect_found w (payload : InspectPayload.t) d :
  let section_id := InspectPayload.section_id payload in
  let i := ObjectId_of_str section_id in
  let st := InspectPayload.status payload in
  let now := clock w 0%nat in
  let inspections :=
    inserted (inspection_doc section_id st (opt_str (InspectPayload.detail payload)) now now)
      (inspection (db w)) in
  ObjectId_is_valid section_id = true →
  tracksection (db w) !! i = Some d →
  inspect payload w =
    match observation_updates d st now now with
    | inl e => ({| db := db_set Inspection inspections (db w);
                   clock := λ n, clock w (1 + n)%nat |}, inl e)
    | inr u =>
        ({| db := {| tracksection := <[i := u ∪ d]> (tracksection (db w));
                     inspection := inspections;
                     alert :=
                       (if bool_decide (st = faulty) then
                          inserted (alert_doc section_id
                                      ("Fault detected at section "
                                       +:+ py_str (get d "name" (VStr "")) +:+ " (auto)")
                                      now)
                            (alert (db w))
                        else alert (db w));
                     user := user (db w) |};
            clock := λ n, clock w (1 + n)%nat |},
         inr {[ "created" := VBool true ]})
    end.
Proof.
  intros section_id i st now inspections Hv Hd.
  unfold inspect, mbind, M_bind, datetime_now, oid. fold section_id. rewrite Hv. simpl.
  rewrite find_one_in_id. fold i. rewrite Hd. simpl.
  unfold require. rewrite falsy_with_id. simpl.
  rewrite with_id_lookup_ne by done. rewrite !get_with_id by done.
  unfold observation_updates, repeat_fault. fold st now.
  destruct (bool_decide (d !! "status" = Some (VStr "faulty")) && bool_decide (st = faulty))
    eqn:Hrep; simpl.
  - destruct (py_add1 (get d "persistent_faults" (VInt 0))) as [e|n]; simpl; [done|].
    unfold update_one; simpl. rewrite (update_one_in_id_found _ _ _ d) by done. simpl.
    apply andb_true_iff in Hrep as [_ Hf]. by rewrite Hf.
  - unfold update_one; simpl. rewrite (update_one_in_id_found _ _ _ d) by done. simpl.
    by destruct (bool_decide (st = faulty)).
Qed.

Lemma inspect_invalid w (payload : InspectPayload.t) :
  ObjectId_is_valid (InspectPayload.section_id payload) = false →
  inspect payload w = (w, inl (HTTPException 400 "Invalid id")).
Proof. intros Hv. unfold inspect, mbind, M_bind, oid. by rewrite Hv. Qed.

Lemma inspect_missing w (payload : InspectPayload.t) :
  ObjectId_is_valid (InspectPayload.section_id payload) = true →
  tracksection (db w) !! ObjectId_of_str (InspectPayload.section_id payload) = None →
  inspect payload w = (w, inl (HTTPException 404 "Section not found")).
Proof.
  intros Hv Hd. unfold inspect, mbind, M_bind, oid. rewrite Hv. simpl.
  by rewrite find_one_in_id, Hd.
Qed.

(** ** What a patch does *)

Lemma model_dump_keys (payload : SectionUpdate.t) (k : string) :
  k ≠ "name" → k ≠ "status" → k ≠ "color_safe" → k ≠ "color_faulty" →
  model_dump_exclude_none payload !! k = None.
Proof.
  intros. unfold model_dump_exclude_none.
  destruct payload as [[?|] [?|] [?|] [?|]]; simpl;
    rewrite ?lookup_insert_ne by done; apply lookup_empty.
Qed.

Lemma update_section_empty w (section_id : string) (payload : SectionUpdate.t) :
  model_dump_exclude_none payload = ∅ →
  update_section section_id payload w = (w, inr {[ "updated" := VBool false ]}).
Proof. intros E. unfold update_section. by rewrite E. Qed.

Lemma update_section_invalid w (section_id : string) (payload : SectionUpdate.t) :
  model_dump_exclude_none payload ≠ ∅ →
  ObjectId_is_valid section_id = false →
  update_section section_id payload w = (tick 1 w, inl (HTTPException 400 "Invalid id")).
Proof.
  intros E Hv. unfold update_section. rewrite bool_decide_eq_false_2 by done.
  unfold mbind, M_bind, datetime_now, oid. by rewrite Hv.
Qed.

Lemma update_section_missing w (section_id : string) (payload : SectionUpdate.t) :
  model_dump_exclude_none payload ≠ ∅ →
  ObjectId_is_valid section_id = true →
  tracksection (db w) !! ObjectId_of_str section_id = None →
  update_section section_id payload w
  = (tick 1 w, inl (HTTPException 404 "Section not found")).
Proof.
  intros E Hv Hd. unfold update_section. rewrite bool_decide_eq_false_2 by done.
  unfold mbind, M_bind, datetime_now, oid. rewrite Hv. simpl.
  unfold update_one; simpl. rewrite update_one_in_id_missing by done. simpl.
  unfold tick. do 2 f_equal. by destruct (db w).
Qed.

Lemma update_section_found w (section_id : string) (payload : SectionUpdate.t) d :
  let i := ObjectId_of_str section_id in
  let updates := <["updated_at" := VTime (clock w 0%nat)]> (model_dump_exclude_none payload) in
  model_dump_exclude_none payload ≠ ∅ →
  ObjectId_is_valid section_id = true →
  tracksection (db w) !! i = Some d →
  update_section section_id payload w
  = ({| db := db_set Tracksection (<[i := updates ∪ d]> (tracksection (db w))) (db w);
        clock := λ n, clock w (1 + n)%nat |},
     inr (section_json i (updates ∪ d))).
Proof.
  intros i updates E Hv Hd. unfold update_section. rewrite bool_decide_eq_false_2 by done.
  unfold mbind, M_bind, datetime_now, oid. rewrite Hv. simpl.
  unfold update_one; simpl. rewrite (update_one_in_id_found _ _ _ d) by done. simpl.
  rewrite find_one_in_id, lookup_insert_eq. simpl. by rewrite rename_id_with_id.
Qed.

(** ** The other handlers *)

Lemma create_section_run w (payload : SectionCreate.t) :
  ∃ r : doc,
    create_section payload w
    = ({| db := db_set Tracksection
                  (inserted (new_section payload (clock w 0%nat)) (tracksection (db w)))
                  (db w);
          clock := λ n, clock w (1 + n)%nat |}, inr r).
Proof.
  eexists. unfold create_section, mbind, M_bind, datetime_now, insert_one. simpl.
  reflexivity.
Qed.

Lemma delete_section_run w (section_id : string) :
  (delete_section section_id w).1 = w
  ∨ (ObjectId_is_valid section_id = true
     ∧ db (delete_section section_id w).1
       = db_set Tracksection (delete (ObjectId_of_str section_id) (tracksection (db w))) (db w)).
Proof.
  unfold delete_section, mbind, M_bind, oid.
  destruct (ObjectId_is_valid section_id); simpl; [|by left].
  unfold delete_one, delete_one_in; simpl.
  destruct (tracksection (db w) !! ObjectId_of_str section_id) eqn:E; simpl.
  - by right.
  - left. by destruct w as [[] ?].
Qed.

Lemma ack_alert_found w (alert_id : string) (a : doc) :
  ObjectId_is_valid alert_id = true →
  alert (db w) !! ObjectId_of_str alert_id = Some a →
  ack_alert alert_id w
  = ({| db := db_set Alert
                (<[ObjectId_of_str alert_id := {[ "acknowledged" := VBool true ]} ∪ a]>
                   (alert (db w))) (db w);
        clock := clock w |},
     inr {[ "acknowledged" := VBool true ]}).
Proof.
  intros Hv Ha. unfold ack_alert, mbind, M_bind, oid. rewrite Hv. simpl.
  unfold update_one; simpl. by rewrite (update_one_in_id_found _ _ _ a).
Qed.

Lemma ack_alert_missing w (alert_id : string) :
  ObjectId_is_valid alert_id = true →
  alert (db w) !! ObjectId_of_str alert_id = None →
  ack_alert alert_id w = (w, inl (HTTPException 404 "Alert not found")).
Proof.
  intros Hv Ha. unfold ack_alert, mbind, M_bind, oid. rewrite Hv. simpl.
  unfold update_one; simpl. rewrite update_one_in_id_missing by done. simpl.
  by destruct w as [[] ?].
Qed.

Lemma ack_alert_invalid w (alert_id : string) :
  ObjectId_is_valid alert_id = false →
  ack_alert alert_id w = (w, inl (HTTPException 400 "Invalid id")).
Proof. intros Hv. unfold ack_alert, mbind, M_bind, oid. by rewrite Hv. Qed.

Lemma ack_alert_sections w (alert_id : string) :
  tracksection (db (ack_alert alert_id w).1) = tracksection (db w).
Proof.
  destruct (ObjectId_is_valid alert_id) eqn:Hv; [|by rewrite ack_alert_invalid].
  destruct (alert (db w) !! ObjectId_of_str alert_id) eqn:Ha.
  - by erewrite ack_alert_found.
  - by rewrite ack_alert_missing.
Qed.

Lemma update_one_user_sections (q : query) (u : doc) w :
  tracksection (db (update_one User q u w).1) = tracksection (db w).
Proof. unfold update_one. by destruct (update_one_in q u _). Qed.

Lemma login_sections w (payload : LoginPayload.t) :
  tracksection (db (login payload w).1) = tracksection (db w).
Proof.
  unfold login, mbind, M_bind. simpl.
  destruct (falsy _); simpl; [done|].
  destruct (default ∅ _ !! "_id") as [[]|]; simpl; try done;
    match goal with |- context [update_one User ?q ?u w] =>
      pose proof (update_one_user_sections q u w) as E;
      destruct (update_one User q u w) as [w' [e|r]]; simpl in *; done
    end.
Qed.

Lemma summary_run w :
  summary w =
    (w, inr {[ "total" := VInt (count_documents_in QAll (tracksection (db w)));
               "safe" := VInt (count_documents_in (QEq "status" (VStr "safe"))
                                 (tracksection (db w)));
               "faulty" := VInt (count_documents_in (QEq "status" (VStr "faulty"))
                                   (tracksection (db w)));
               "critical" := VInt (count_documents_in (QGte "persistent_faults" 3)
                                     (tracksection (db w))) ]}).
Proof. reflexivity. Qed.

(** ** One request, seen from one section *)

Lemma section_step_same r d i : section_step r d i (Some d).
Proof. by left. Qed.

Lemma section_step_observation e (section_id : string) st d dj i
    (now last_check : datetime) (u : doc) (c : collection) :
  c !! i = Some d →
  c !! ObjectId_of_str section_id = Some dj →
  observation_updates dj st now last_check = inr u →
  section_step (observation e section_id st) d i
    (<[ObjectId_of_str section_id := u ∪ dj]> c !! i).
Proof.
  intros Hd Hj Hu. rewrite lookup_insert. case_decide as Hij; simpl.
  - subst i. assert (dj = d) as -> by congruence.
    destruct (observation_updates_fields _ _ _ _ _ Hu) as (_ & _ & _ & Hpf).
    destruct (repeat_fault d st) eqn:Hrep.
    + right. apply andb_true_iff in Hrep as [Hs Hst].
      apply bool_decide_eq_true in Hs, Hst. subst st.
      split_and!; [by apply lookup_union_Some_l|done|by exists e, section_id].
    + left. by apply lookup_union_r.
  - rewrite Hd. by left.
Qed.

Lemma serve_section_step r w i d :
  tracksection (db w) !! i = Some d →
  section_step r d i (tracksection (db (serve w r)) !! i).
Proof.
  intros Hd. unfold serve. destruct r as [p|sid p|sid|sid p|p|aid| |p]; cbn [route].
  - destruct (create_section_run w p) as [r ->]. simpl.
    erewrite inserted_lookup_old by done. apply section_step_same.
  - destruct (decide (model_dump_exclude_none p = ∅)) as [E|E].
    { rewrite update_section_empty by done. simpl. rewrite Hd. apply section_step_same. }
    destruct (ObjectId_is_valid sid) eqn:Hv.
    2:{ rewrite update_section_invalid by done. simpl. rewrite Hd. apply section_step_same. }
    destruct (tracksection (db w) !! ObjectId_of_str sid) as [dj|] eqn:Hj.
    2:{ rewrite update_section_missing by done. simpl. rewrite Hd. apply section_step_same. }
    rewrite (update_section_found _ _ _ dj) by done. simpl.
    rewrite lookup_insert. case_decide as Hij; simpl; [|rewrite Hd; apply section_step_same].
    subst i. assert (dj = d) as -> by congruence. left.
    apply lookup_union_r. rewrite lookup_insert_ne by done. by apply model_dump_keys.
  - destruct (delete_section_run w sid) as [->|[Hv ->]]; simpl.
    { rewrite Hd. apply section_step_same. }
    rewrite lookup_delete. case_decide as Hij; simpl; [by exists sid|].
    rewrite Hd. apply section_step_same.
  - destruct (ObjectId_is_valid sid) eqn:Hv.
    2:{ rewrite mark_section_invalid by done. simpl. rewrite Hd. apply section_step_same. }
    destruct (tracksection (db w) !! ObjectId_of_str sid) as [dj|] eqn:Hj.
    2:{ rewrite mark_section_missing by done. simpl. rewrite Hd. apply section_step_same. }
    rewrite (mark_section_found _ _ _ dj) by done. destruct p as [st]. simpl.
    destruct (observation_updates dj st _ _) as [e|u] eqn:Hu; simpl.
    { rewrite Hd. apply section_step_same. }
    by eapply (section_step_observation via_mark sid st d dj i).
  - destruct p as [sid st detail].
    destruct (ObjectId_is_valid sid) eqn:Hv.
    2:{ rewrite inspect_invalid by done. simpl. rewrite Hd. apply section_step_same. }
    destruct (tracksection (db w) !! ObjectId_of_str sid) as [dj|] eqn:Hj.
    2:{ rewrite inspect_missing by done. simpl. rewrite Hd. apply section_step_same. }
    rewrite (inspect_found _ _ dj) by done. simpl.
    destruct (observation_updates dj st _ _) as [e|u] eqn:Hu; simpl.
    { rewrite Hd. apply section_step_same. }
    by eapply (section_step_observation (via_inspect detail) sid st d dj i).
  - rewrite ack_alert_sections, Hd. apply section_step_same.
  - rewrite summary_run. cbn [fst]. rewrite Hd. apply section_step_same.
  - rewrite login_sections, Hd. apply section_step_same.
Qed.

End Properties.

(** * The claims *)

Lemma section_step_counter {P : Platform} (r : request) (d d' : doc) (i : ObjectId) :
  section_step r d i (Some d') →
  persistent_faults_of d' = persistent_faults_of d
  ∨ (persistent_faults_of d' = persistent_faults_of d + 1
     ∧ d !! "status" = Some (VStr "faulty")
     ∧ ∃ e section_id,
         r = observation e section_id faulty ∧ ObjectId_of_str section_id = i).
Proof.
  unfold persistent_faults_of at 1 3. intros [E|(E & Hs & Hr)]; rewrite E; [by left|by right].
Qed.

(** C1. A section in the store stays in it along requests that are not
    deletions (in particular along mark and inspect calls), and its
    [persistent_faults] does not decrease along them; one more request of any
    kind then either deletes the section, or leaves the counter as it was, or
    adds exactly one to it, and the last only when the request is a faulty
    observation of this very section and the stored status was already
    [faulty].  No request lowers the counter. *)
Theorem persistent_faults_only_accumulates {P : Platform}
    (rs : list request) (r : request) (w : world) (i : ObjectId) (d : doc) :
  tracksection (db w) !! i = Some d →
  Forall (λ r0, is_delete r0 = false) rs →
  ∃ d1 : doc,
    tracksection (db (serve_all w rs)) !! i = Some d1
    ∧ persistent_faults_of d ≤ persistent_faults_of d1
    ∧ match tracksection (db (serve (serve_all w rs) r)) !! i with
      | Some d2 =>
          persistent_faults_of d2 = persistent_faults_of d1
          ∨ (persistent_faults_of d2 = persistent_faults_of d1 + 1
             ∧ d1 !! "status" = Some (VStr "faulty")
             ∧ ∃ e section_id,
                 r = observation e section_id faulty ∧ ObjectId_of_str section_id = i)
      | None => ∃ section_id, r = DELETE_section section_id ∧ ObjectId_of_str section_id = i
      end.
Proof.
  intros Hd Hrs. revert w d Hd.
  induction Hrs as [|r0 rs Hr0 _ IH]; intros w d Hd.
  - exists d. split_and!; [done|lia|]. simpl.
    pose proof (serve_section_step r w i d Hd) as Hstep.
    destruct (tracksection (db (serve w r)) !! i) as [d2|]; [|done].
    by apply section_step_counter.
  - pose proof (serve_section_step r0 w i d Hd) as Hstep.
    destruct (tracksection (db (serve w r0)) !! i) as [d0|] eqn:Hd0.
    + destruct (IH _ _ Hd0) as (d1 & H1 & Hle & Hlast).
      exists d1. split_and!; [done| |done].
      apply section_step_counter in Hstep as [E|[E _]]; lia.
    + destruct Hstep as (sid & -> & _). done.
Qed.

Lemma persistent_faults_only_accumulates_witness :
  tracksection (db world1) !! 0%N = Some (new_section S1 1000)
  ∧ ∃ d1 : doc,
      tracksection (db (serve_all (P := demo) world1 [mark_faulty_0; inspect_faulty_0])) !! 0%N
      = Some d1
      ∧ persistent_faults_of (new_section S1 1000) ≤ persistent_faults_of d1
      ∧ match tracksection
                (db (serve (P := demo)
                       (serve_all (P := demo) world1 [mark_faulty_0; inspect_faulty_0])
                       mark_faulty_0)) !! 0%N with
        | Some d2 =>
            persistent_faults_of d2 = persistent_faults_of d1
            ∨ (persistent_faults_of d2 = persistent_faults_of d1 + 1
               ∧ d1 !! "status" = Some (VStr "faulty")
               ∧ ∃ e section_id,
                   mark_faulty_0 = observation e section_id faulty
                   ∧ ObjectId_of_str (Platform := demo) section_id = 0%N)
        | None =>
            ∃ section_id,
              mark_faulty_0 = DELETE_section section_id
              ∧ ObjectId_of_str (Platform := demo) section_id = 0%N
        end.
Proof.
  split; [vm_compute; reflexivity|].
  apply (persistent_faults_only_accumulates (P := demo)).
  - vm_compute. reflexivity.
  - repeat constructor.
Defined.

(** C4. An observation, by either entry point, whose section id is well
    formed and names no stored section raises 404 "Section not found" and
    leaves the database as it was: no inspection, no alert, no section
    written. *)
Theorem observation_of_missing_section {P : Platform}
    (e : entry) (section_id : string) (observed : Status) (w : world) :
  ObjectId_is_valid section_id = true →
  tracksection (db w) !! ObjectId_of_str section_id = None →
  ∃ w' : world,
    recordObservation e section_id observed w
    = (w', inl (HTTPException 404 "Section not found"))
    ∧ db w' = db w.
Proof.
  intros Hv Hd. unfold recordObservation. destruct e as [|detail]; cbn [observation route].
  - rewrite mark_section_missing by done. by eexists.
  - rewrite inspect_missing by done. by eexists.
Qed.

Lemma observation_of_missing_section_witness :
  ObjectId_is_valid (Platform := demo) "7" = true
  ∧ tracksection (db world1) !! ObjectId_of_str (Platform := demo) "7" = None
  ∧ ∃ w' : world,
      recordObservation (P := demo) via_mark "7" faulty world1
      = (w', inl (HTTPException 404 "Section not found"))
      ∧ db w' = db world1.
Proof.
  split; [reflexivity|]. split; [vm_compute; reflexivity|].
  apply (observation_of_missing_section (P := demo)); vm_compute; reflexivity.
Defined.

(** C10. A patch whose payload carries no recognised field answers
    [{"updated": False}] and leaves the whole world as it was (nothing
    written, the clock not even read), whatever the section id: malformed,
    or naming no section. *)
Theorem update_section_without_fields {P : Platform} (section_id : string) (w : world) :
  update_section section_id no_fields w = (w, inr {[ "updated" := VBool false ]}).
Proof. by apply update_section_empty. Qed.

Lemma matches_gte_counter (i : ObjectId) (d : doc) :
  Is_true (matches (QGte "persistent_faults" 3) i d) ↔ 3 ≤ persistent_faults_of d.
Proof.
  unfold matches, persistent_faults_of. rewrite with_id_lookup_ne by done.
  destruct (d !! "persistent_faults") as [[| [] | m | | |]|]; simpl;
    rewrite ?bool_decide_spec; split; (done || lia).
Qed.

Lemma matches_eq_status (s : string) (i : ObjectId) (d : doc) :
  Is_true (matches (QEq "status" (VStr s)) i d) ↔ d !! "status" = Some (VStr s).
Proof. unfold matches. rewrite with_id_lookup_ne by done. apply bool_decide_spec. Qed.

(** C8. [summary] answers with the number of sections as [total], the
    numbers of sections whose status is "safe" and "faulty" as [safe] and
    [faulty], and the number of sections whose [persistent_faults] is at least
    3 as [critical]; the world it leaves is the world it found. *)
Theorem summary_counts (w : world) :
  let sections := tracksection (db w) in
  summary w =
    (w, inr {[ "total" := VInt (Z.of_nat (size sections));
               "safe" := VInt (count_where (λ d, d !! "status" = Some (VStr "safe")) sections);
               "faulty" :=
                 VInt (count_where (λ d, d !! "status" = Some (VStr "faulty")) sections);
               "critical" :=
                 VInt (count_where (λ d, 3 ≤ persistent_faults_of d) sections) ]}).
Proof.
  intros sections. rewrite summary_run. fold sections.
  unfold count_documents_in, count_where, matching.
  assert (filter (λ kv : N * gmap string value, Is_true (matches QAll kv.1 kv.2)) sections
          = sections) as -> by (by apply map_filter_id).
  assert (∀ s : string,
            filter (λ kv : N * gmap string value,
                      Is_true (matches (QEq "status" (VStr s)) kv.1 kv.2)) sections
            = filter (λ kv : N * gmap string value, kv.2 !! "status" = Some (VStr s)) sections)
    as Hstatus.
  { intros s. apply map_filter_ext. intros i d _. apply matches_eq_status. }
  rewrite !Hstatus.
  assert (filter (λ kv : N * gmap string value,
                    Is_true (matches (QGte "persistent_faults" 3) kv.1 kv.2)) sections
          = filter (λ kv : N * gmap string value, 3 ≤ persistent_faults_of kv.2) sections)
    as ->; [|done].
  apply map_filter_ext. intros i d _. apply matches_gte_counter.
Qed.

(** The summary of two safe sections and a faulty one with three faults. *)
Example summary_of_three :
  (summary world3).2
  = inr {[ "total" := VInt 3; "safe" := VInt 2; "faulty" := VInt 1; "critical" := VInt 1 ]}.
Proof. vm_compute. reflexivity. Qed.

Lemma model_dump_status (payload : SectionUpdate.t) :
  model_dump_exclude_none payload !! "status"
  = VStr ∘ status_str <$> SectionUpdate.status payload.
Proof.
  unfold model_dump_exclude_none.
  destruct payload as [[?|] [?|] [?|] [?|]]; simpl;
    rewrite ?lookup_insert_eq, ?lookup_insert_ne, ?lookup_insert_eq by done;
    done.
Qed.

(** C7. A patch leaves the [persistent_faults] of every stored section as
    it was, with whatever payload and id it comes; and where it names a stored
    section and sets a status, that status is stored. *)
Theorem update_section_bypasses_counter {P : Platform}
    (section_id : string) (payload : SectionUpdate.t) (w : world) (i : ObjectId) (d : doc) :
  tracksection (db w) !! i = Some d →
  ∃ d' : doc,
    tracksection (db (update_section section_id payload w).1) !! i = Some d'
    ∧ d' !! "persistent_faults" = d !! "persistent_faults"
    ∧ ∀ st, ObjectId_is_valid section_id = true →
            ObjectId_of_str section_id = i →
            SectionUpdate.status payload = Some st →
            d' !! "status" = Some (VStr (status_str st)).
Proof.
  intros Hd.
  assert (∀ st, model_dump_exclude_none payload = ∅ →
                SectionUpdate.status payload = Some st → False) as Hne.
  { intros st E Hst. pose proof (model_dump_status payload) as Hs.
    by rewrite E, Hst, lookup_empty in Hs. }
  destruct (decide (model_dump_exclude_none payload = ∅)) as [E|E].
  { rewrite update_section_empty by done. exists d. split_and!; [done..|].
    intros st _ _ Hst. by destruct (Hne st). }
  destruct (ObjectId_is_valid section_id) eqn:Hv.
  2:{ rewrite update_section_invalid by done. exists d. by split_and!. }
  destruct (tracksection (db w) !! ObjectId_of_str section_id) as [dj|] eqn:Hj.
  2:{ rewrite update_section_missing by done. exists d. split_and!; [done..|].
      intros st _ Hi. congruence. }
  rewrite (update_section_found _ _ _ dj) by done. cbn [fst db db_set tracksection].
  rewrite lookup_insert. case_decide as Hij; cbn [fmap option_fmap option_map].
  - subst i. assert (dj = d) as -> by congruence.
    eexists. split_and!; [done| |].
    + apply lookup_union_r. rewrite lookup_insert_ne by done. by apply model_dump_keys.
    + intros st _ _ Hst. apply lookup_union_Some_l.
      rewrite lookup_insert_ne by done. by rewrite model_dump_status, Hst.
  - exists d. split_and!; [done..|]. intros st _ Hi. congruence.
Qed.

Lemma update_section_bypasses_counter_witness :
  tracksection (db world2) !! 0%N
  = Some (<["persistent_faults" := VInt 0]>
            ({[ "status" := VStr "faulty"; "last_check" := VStr "T1002";
                "updated_at" := VTime 1001 ]} ∪ new_section S1 1000))
  ∧ ∃ d' : doc,
      tracksection (db (update_section (P := demo) "0" set_faulty world2).1) !! 0%N = Some d'
      ∧ d' !! "persistent_faults" = Some (VInt 0).
Proof.
  split; [vm_compute; reflexivity|].
  destruct (update_section_bypasses_counter (P := demo) "0" set_faulty world2 0%N
              (<["persistent_faults" := VInt 0]>
                 ({[ "status" := VStr "faulty"; "last_check" := VStr "T1002";
                     "updated_at" := VTime 1001 ]} ∪ new_section S1 1000)))
    as (d' & Hd' & Hpf & _).
  - vm_compute. reflexivity.
  - exists d'. split; [exact Hd'|]. rewrite Hpf. vm_compute. reflexivity.
Defined.

(** C9. With a well-formed id: where it names a stored alert,
    [ack_alert] answers [{"acknowledged": True}] and stores the alert with
    [acknowledged] true, its other fields and the other alerts as they were,
    and a second call answers the same and leaves the world the first call
    made; where it names no alert, [ack_alert] raises 404 "Alert not found"
    and leaves the world as it was. *)
Theorem ack_alert_idempotent {P : Platform} (alert_id : string) (w : world) :
  ObjectId_is_valid alert_id = true →
  match alert (db w) !! ObjectId_of_str alert_id with
  | Some a =>
      ∃ (w1 : world) (a1 : doc),
        ack_alert alert_id w = (w1, inr {[ "acknowledged" := VBool true ]})
        ∧ alert (db w1) !! ObjectId_of_str alert_id = Some a1
        ∧ a1 !! "acknowledged" = Some (VBool true)
        ∧ (∀ k : string, k ≠ "acknowledged" → a1 !! k = a !! k)
        ∧ (∀ j : ObjectId, j ≠ ObjectId_of_str alert_id →
             alert (db w1) !! j = alert (db w) !! j)
        ∧ ack_alert alert_id w1 = (w1, inr {[ "acknowledged" := VBool true ]})
  | None => ack_alert alert_id w = (w, inl (HTTPException 404 "Alert not found"))
  end.
Proof.
  intros Hv. destruct (alert (db w) !! ObjectId_of_str alert_id) as [a|] eqn:Ha.
  2:{ by apply ack_alert_missing. }
  rewrite (ack_alert_found _ _ a) by done.
  eexists _, _. split_and!; [reflexivity|..].
  - simpl. apply lookup_insert_eq.
  - by apply lookup_union_Some_l.
  - intros k Hk. apply lookup_union_r. by rewrite lookup_singleton_ne.
  - intros j Hj. simpl. by rewrite lookup_insert_ne.
  - erewrite ack_alert_found; [|done|simpl; apply lookup_insert_eq].
    simpl. rewrite insert_insert_eq, (assoc_L (∪)), (idemp_L (∪)). done.
Qed.

Lemma ack_alert_idempotent_witness :
  ObjectId_is_valid (Platform := demo) "0" = true
  ∧ ∃ (w1 : world) (a1 : doc),
      ack_alert (P := demo) "0" world2 = (w1, inr {[ "acknowledged" := VBool true ]})
      ∧ alert (db w1) !! 0%N = Some a1
      ∧ a1 !! "acknowledged" = Some (VBool true)
      ∧ ack_alert (P := demo) "0" w1 = (w1, inr {[ "acknowledged" := VBool true ]}).
Proof.
  split; [reflexivity|].
  pose proof (ack_alert_idempotent (P := demo) "0" world2 eq_refl) as Hack.
  change (ObjectId_of_str (Platform := demo) "0") with 0%N in Hack.
  destruct (alert (db world2) !! 0%N) as [a|] eqn:Ha; [|by vm_compute in Ha].
  destruct Hack as (w1 & a1 & H1 & H2 & H3 & _ & _ & H4).
  exists w1, a1. by split_and!.
Defined.

(** ** A successful observation, field by field *)

Lemma observation_updates_ok {P : Platform} (d : doc) (st : Status)
    (now last_check : datetime) :
  counter_ok d = true → ∃ u : doc, observation_updates d st now last_check = inr u.
Proof.
  unfold counter_ok, observation_updates, get. intros Hok.
  destruct (repeat_fault d st); [|by eexists].
  destruct (d !! "persistent_faults") as [[]|]; simpl in *; try done; by eexists.
Qed.

Lemma observation_run {P : Platform} (e : entry) (section_id : string) (st : Status)
    (w : world) (d : doc) :
  ObjectId_is_valid section_id = true →
  tracksection (db w) !! ObjectId_of_str section_id = Some d →
  counter_ok d = true →
  ∃ (u : doc) (w' : world) (record : doc) (message : string),
    observation_updates d st (clock w 0%nat) (clock w (last_check_reading e)) = inr u
    ∧ recordObservation e section_id st w
      = (w', inr match e with
                 | via_mark => section_json (ObjectId_of_str section_id) (u ∪ d)
                 | via_inspect _ => {[ "created" := VBool true ]}
                 end)
    ∧ tracksection (db w') = <[ObjectId_of_str section_id := u ∪ d]> (tracksection (db w))
    ∧ inspection (db w') = inserted record (inspection (db w))
    ∧ record !! "section_id" = Some (VStr section_id)
    ∧ record !! "status" = Some (VStr (status_str st))
    ∧ alert (db w')
      = (if bool_decide (st = faulty)
         then inserted (alert_doc section_id message (clock w 0%nat)) (alert (db w))
         else alert (db w)).
Proof.
  intros Hv Hd Hok.
  destruct (observation_updates_ok d st (clock w 0%nat) (clock w (last_check_reading e)) Hok)
    as [u Hu].
  exists u. unfold recordObservation. destruct e as [|detail]; cbn [observation route].
  - rewrite (mark_section_found _ _ _ d) by done. cbn [MarkPayload.status].
    simpl in Hu. rewrite Hu.
    eexists _, _, _. split_and!; [done|reflexivity|done|done|done|done|reflexivity].
  - rewrite (inspect_found _ _ d) by done.
    cbn [InspectPayload.status InspectPayload.section_id InspectPayload.detail].
    simpl in Hu. rewrite Hu.
    eexists _, _, _. split_and!; [done|reflexivity|done|done|done|done|reflexivity].
Qed.

(** C3. An observation of a stored section (its counter one Python can
    add to) is answered, and: observed [faulty], it adds exactly one alert to
    the alerts there were, under an id none of them had, with the request's
    section id as [section_id], "high" as [severity] and [acknowledged] false;
    observed [safe], it leaves the alerts as they were. *)
Theorem observation_alert {P : Platform} (e : entry) (section_id : string)
    (observed : Status) (w : world) (d : doc) :
  ObjectId_is_valid section_id = true →
  tracksection (db w) !! ObjectId_of_str section_id = Some d →
  counter_ok d = true →
  ∃ (w' : world) (r : doc),
    recordObservation e section_id observed w = (w', inr r)
    ∧ match observed with
      | faulty =>
          ∃ (j : ObjectId) (a : doc),
            alert (db w) !! j = None
            ∧ alert (db w') = <[j := a]> (alert (db w))
            ∧ size (alert (db w')) = S (size (alert (db w)))
            ∧ a !! "section_id" = Some (VStr section_id)
            ∧ a !! "severity" = Some (VStr "high")
            ∧ a !! "acknowledged" = Some (VBool false)
      | safe => alert (db w') = alert (db w)
      end.
Proof.
  intros Hv Hd Hok.
  destruct (observation_run e section_id observed w d Hv Hd Hok)
    as (u & w' & record & message & _ & Hrun & _ & _ & _ & _ & Halert).
  eexists w', _. split; [exact Hrun|].
  destruct observed; simpl in Halert; [done|].
  eexists _, _. split_and!; [|exact Halert|..].
  - apply inserted_fresh, d.
  - rewrite Halert. apply inserted_size.
  - done.
  - done.
  - done.
Qed.

Lemma observation_alert_witness :
  ObjectId_is_valid (Platform := demo) "0" = true
  ∧ tracksection (db world1) !! ObjectId_of_str (Platform := demo) "0"
    = Some (new_section S1 1000)
  ∧ counter_ok (new_section S1 1000) = true
  ∧ ∃ (w' : world) (r : doc),
      recordObservation (P := demo) (via_inspect None) "0" faulty world1 = (w', inr r)
      ∧ ∃ (j : ObjectId) (a : doc),
          alert (db world1) !! j = None
          ∧ alert (db w') = <[j := a]> (alert (db world1))
          ∧ size (alert (db w')) = S (size (alert (db world1)))
          ∧ a !! "section_id" = Some (VStr "0")
          ∧ a !! "severity" = Some (VStr "high")
          ∧ a !! "acknowledged" = Some (VBool false).
Proof.
  split; [reflexivity|]. split; [vm_compute; reflexivity|]. split; [reflexivity|].
  apply (observation_alert (P := demo) (via_inspect None) "0" faulty world1
           (new_section S1 1000)).
  - reflexivity.
  - vm_compute. reflexivity.
  - reflexivity.
Defined.

(** C6, as the specification has it, fails at the inspect entry point:
    the answer to an inspection of the stored section "0" is
    [{"created": True}], which is no section. *)
Lemma inspect_returns_no_section :
  ¬ returns_reloaded_section (P := demo) (via_inspect None) "0" faulty world1.
Proof.
  unfold returns_reloaded_section. intros (d' & _ & Hr).
  assert ((recordObservation (P := demo) (via_inspect None) "0" faulty world1).2
          = inr {[ "created" := VBool true ]}) as E by (vm_compute; reflexivity).
  rewrite E in Hr. injection Hr as Hr.
  apply (f_equal (λ m : gmap string value, m !! "id")) in Hr.
  unfold section_json in Hr. rewrite lookup_insert_eq in Hr. by vm_compute in Hr.
Qed.

(** C6, amended. An observation of a stored section (its counter one
    Python can add to) stores the observed status, the call's [last_check]
    and, on a repeated fault, the counter plus one (else the counter as it
    was); through [mark_section] the answer is that stored section, reloaded,
    its [_id] given as the string [id]; through [inspect] the answer is
    [{"created": True}]. *)
Theorem observation_response {P : Platform} (e : entry) (section_id : string)
    (observed : Status) (w : world) (d : doc) :
  ObjectId_is_valid section_id = true →
  tracksection (db w) !! ObjectId_of_str section_id = Some d →
  counter_ok d = true →
  ∃ (w' : world) (r d' : doc),
    recordObservation e section_id observed w = (w', inr r)
    ∧ tracksection (db w') !! ObjectId_of_str section_id = Some d'
    ∧ d' !! "status" = Some (VStr (status_str observed))
    ∧ d' !! "last_check" = Some (VStr (isoformat (clock w (last_check_reading e))))
    ∧ d' !! "persistent_faults"
      = (if repeat_fault d observed then Some (VInt (persistent_faults_of d + 1))
         else d !! "persistent_faults")
    ∧ r = match e with
          | via_mark => section_json (ObjectId_of_str section_id) d'
          | via_inspect _ => {[ "created" := VBool true ]}
          end.
Proof.
  intros Hv Hd Hok.
  destruct (observation_run e section_id observed w d Hv Hd Hok)
    as (u & w' & record & message & Hu & Hrun & Hsec & _).
  destruct (observation_updates_fields _ _ _ _ _ Hu) as (Hst & Hlc & _ & Hpf).
  eexists w', _, (u ∪ d). split_and!; [exact Hrun|..].
  - rewrite Hsec. apply lookup_insert_eq.
  - by apply lookup_union_Some_l.
  - by apply lookup_union_Some_l.
  - destruct (repeat_fault d observed).
    + by apply lookup_union_Some_l.
    + by apply lookup_union_r.
  - done.
Qed.

Lemma observation_response_witness :
  ObjectId_is_valid (Platform := demo) "0" = true
  ∧ tracksection (db world1) !! ObjectId_of_str (Platform := demo) "0"
    = Some (new_section S1 1000)
  ∧ counter_ok (new_section S1 1000) = true
  ∧ ∃ (w' : world) (r d' : doc),
      recordObservation (P := demo) via_mark "0" faulty world1 = (w', inr r)
      ∧ tracksection (db w') !! 0%N = Some d'
      ∧ d' !! "status" = Some (VStr "faulty")
      ∧ r = section_json (P := demo) 0%N d'.
Proof.
  split; [reflexivity|]. split; [vm_compute; reflexivity|]. split; [reflexivity|].
  destruct (observation_response (P := demo) via_mark "0" faulty world1
              (new_section S1 1000)) as (w' & r & d' & H1 & H2 & H3 & _ & _ & H6).
  - reflexivity.
  - vm_compute. reflexivity.
  - reflexivity.
  - exists w', r, d'. split_and!; [exact H1|exact H2|exact H3|exact H6].
Defined.

(** C2, as the specification has it, fails on a section that is already
    faulty: section "0" of [world2] is faulty with counter 0, and two faulty
    marks leave its counter at 2. *)
Lemma two_faults_on_faulty_section_add_two :
  ¬ two_faults_add_one (P := demo) via_mark via_mark "0" world2.
Proof.
  unfold two_faults_add_one. intros Hclaim.
  destruct (Hclaim (<["persistent_faults" := VInt 0]>
                      ({[ "status" := VStr "faulty"; "last_check" := VStr "T1002";
                          "updated_at" := VTime 1001 ]} ∪ new_section S1 1000)))
    as [(d2 & Hd2 & Hpf) _]; [vm_compute; reflexivity|].
  vm_compute in Hd2. injection Hd2 as <-. by vm_compute in Hpf.
Qed.

Lemma observation_section_after {P : Platform} (d u : doc) (st : Status)
    (now last_check : datetime) :
  observation_updates d st now last_check = inr u →
  (u ∪ d) !! "status" = Some (VStr (status_str st))
  ∧ persistent_faults_of (u ∪ d)
    = persistent_faults_of d + (if repeat_fault d st then 1 else 0)
  ∧ counter_ok (u ∪ d) = counter_ok d.
Proof.
  intros Hu. destruct (observation_updates_fields _ _ _ _ _ Hu) as (Hst & _ & _ & Hpf).
  split; [by apply lookup_union_Some_l|].
  unfold persistent_faults_of at 1, counter_ok at 1.
  destruct (repeat_fault d st) eqn:Hrep.
  - rewrite (lookup_union_Some_l _ _ _ _ Hpf). split; [done|].
    unfold observation_updates in Hu. rewrite Hrep in Hu.
    unfold counter_ok, get in *.
    by destruct (d !! "persistent_faults") as [[]|]; simpl in *.
  - rewrite (lookup_union_r _ _ _ Hpf). split; [|done].
    unfold persistent_faults_of. lia.
Qed.

(** C2, amended. Two faulty observations in a row of a stored section
    (its counter one Python can add to), by any two entry points, add exactly
    one to [persistent_faults] where the section was not faulty before the
    first, and exactly two where it was; either way they add exactly two
    inspection records, both for this section id and with status "faulty". *)
Theorem two_faulty_observations {P : Platform} (e1 e2 : entry) (section_id : string)
    (w : world) (d : doc) :
  ObjectId_is_valid section_id = true →
  tracksection (db w) !! ObjectId_of_str section_id = Some d →
  counter_ok d = true →
  let w2 := serve_all w [observation e1 section_id faulty; observation e2 section_id faulty] in
  ∃ d2 r1 r2 : doc,
    tracksection (db w2) !! ObjectId_of_str section_id = Some d2
    ∧ persistent_faults_of d2
      = persistent_faults_of d
        + (if bool_decide (d !! "status" = Some (VStr "faulty")) then 2 else 1)
    ∧ inspection (db w2) = inserted r2 (inserted r1 (inspection (db w)))
    ∧ size (inspection (db w2)) = S (S (size (inspection (db w))))
    ∧ r1 !! "section_id" = Some (VStr section_id)
    ∧ r1 !! "status" = Some (VStr "faulty")
    ∧ r2 !! "section_id" = Some (VStr section_id)
    ∧ r2 !! "status" = Some (VStr "faulty").
Proof.
  intros Hv Hd Hok w2.
  destruct (observation_run e1 section_id faulty w d Hv Hd Hok)
    as (u1 & w1 & r1 & m1 & Hu1 & Hrun1 & Hsec1 & Hins1 & Hid1 & Hst1 & _).
  destruct (observation_section_after _ _ _ _ _ Hu1) as (Hs1 & Hpf1 & Hok1).
  assert (tracksection (db w1) !! ObjectId_of_str section_id = Some (u1 ∪ d)) as Hd1
    by (rewrite Hsec1; apply lookup_insert_eq).
  rewrite Hok in Hok1.
  destruct (observation_run e2 section_id faulty w1 (u1 ∪ d) Hv Hd1 Hok1)
    as (u2 & w2' & r2 & m2 & Hu2 & Hrun2 & Hsec2 & Hins2 & Hid2 & Hst2 & _).
  destruct (observation_section_after _ _ _ _ _ Hu2) as (_ & Hpf2 & _).
  assert (w2 = w2') as ->.
  { subst w2. cbn [serve_all foldl]. unfold serve.
    change (route (observation e1 section_id faulty) w)
      with (recordObservation e1 section_id faulty w).
    rewrite Hrun1. cbn [fst].
    change (route (observation e2 section_id faulty) w1)
      with (recordObservation e2 section_id faulty w1).
    by rewrite Hrun2. }
  exists (u2 ∪ (u1 ∪ d)), r1, r2. split_and!; [| | | |done..].
  - rewrite Hsec2. apply lookup_insert_eq.
  - rewrite Hpf2, Hpf1. unfold repeat_fault. rewrite Hs1. simpl. rewrite andb_true_r.
    destruct (bool_decide (d !! "status" = Some (VStr "faulty"))); lia.
  - by rewrite Hins2, Hins1.
  - rewrite Hins2, Hins1. by rewrite !inserted_size.
Qed.

Lemma two_faulty_observations_witness :
  ObjectId_is_valid (Platform := demo) "0" = true
  ∧ tracksection (db world1) !! ObjectId_of_str (Platform := demo) "0"
    = Some (new_section S1 1000)
  ∧ counter_ok (new_section S1 1000) = true
  ∧ ∃ d2 : doc,
      tracksection (db (serve_all (P := demo) world1 [mark_faulty_0; inspect_faulty_0])) !! 0%N
      = Some d2
      ∧ persistent_faults_of d2 = 1
      ∧ size (inspection
                (db (serve_all (P := demo) world1 [mark_faulty_0; inspect_faulty_0])))
        = 2%nat.
Proof.
  split; [reflexivity|]. split; [vm_compute; reflexivity|]. split; [reflexivity|].
  destruct (two_faulty_observations (P := demo) via_mark (via_inspect None) "0" world1
              (new_section S1 1000)) as (d2 & r1 & r2 & H1 & H2 & _ & H4 & _).
  - reflexivity.
  - vm_compute. reflexivity.
  - reflexivity.
  - exists d2. split_and!; [exact H1|exact H2|exact H4].
Defined.

(** C5, as the specification has it, fails for a patch that names no
    field: on the stored section "0" it stamps nothing ([updated_at] stays at
    the time of creation), and on the absent id "7" it does not fail. *)
Lemma patch_without_fields_neither_stamps_nor_fails :
  ¬ stamps_or_not_found (P := demo) "0" no_fields world1
  ∧ ¬ stamps_or_not_found (P := demo) "7" no_fields world1.
Proof.
  unfold stamps_or_not_found. split.
  - assert (tracksection (db world1) !! ObjectId_of_str (Platform := demo) "0"
            = Some (new_section S1 1000)) as E by (vm_compute; reflexivity).
    rewrite E. rewrite update_section_empty by done. cbn [fst].
    intros (d' & Hd' & Hup). rewrite E in Hd'. injection Hd' as <-.
    by vm_compute in Hup.
  - assert (tracksection (db world1) !! ObjectId_of_str (Platform := demo) "7" = None) as E
      by (vm_compute; reflexivity).
    rewrite E. by rewrite update_section_empty.
Qed.

Lemma model_dump_empty (payload : SectionUpdate.t) :
  model_dump_exclude_none payload = ∅ → payload = no_fields.
Proof.
  unfold model_dump_exclude_none.
  destruct payload as [[?|] [?|] [?|] [?|]]; simpl; intros E; try done;
    by apply insert_non_empty in E.
Qed.

(** C5, amended. A patch that names at least one field, with a
    well-formed id: where the id names a stored section, the section is
    stored with [updated_at] the time of the call; where it names none, the
    patch raises 404 "Section not found". *)
Theorem update_section_stamps_or_not_found {P : Platform}
    (section_id : string) (payload : SectionUpdate.t) (w : world) :
  payload ≠ no_fields →
  ObjectId_is_valid section_id = true →
  stamps_or_not_found section_id payload w.
Proof.
  intros Hp Hv. unfold stamps_or_not_found.
  assert (model_dump_exclude_none payload ≠ ∅) as E
    by (intros E; by apply Hp, model_dump_empty).
  destruct (tracksection (db w) !! ObjectId_of_str section_id) as [d|] eqn:Hd.
  - rewrite (update_section_found _ _ _ d) by done. cbn [fst db db_set tracksection].
    eexists. split; [apply lookup_insert_eq|].
    apply lookup_union_Some_l, lookup_insert_eq.
  - by rewrite update_section_missing.
Qed.

Lemma update_section_stamps_or_not_found_witness :
  set_faulty ≠ no_fields
  ∧ ObjectId_is_valid (Platform := demo) "0" = true
  ∧ stamps_or_not_found (P := demo) "0" set_faulty world1.
Proof.
  assert (set_faulty ≠ no_fields) as Hne by discriminate.
  split; [exact Hne|]. split; [reflexivity|].
  apply (update_section_stamps_or_not_found (P := demo) "0" set_faulty world1 Hne).
  reflexivity.
Defined.

(** ** The counter stays one Python can add to

    Every request keeps [counter_ok] of all stored sections, and the empty
    database has it: the condition the theorems on successful observations
    ask of the section holds in every store this service has built. *)

Lemma serve_new_section {P : Platform} (r : request) (w : world) (i : ObjectId) (d' : doc) :
  tracksection (db w) !! i = None →
  tracksection (db (serve w r)) !! i = Some d' →
  ∃ payload, r = POST_sections payload ∧ d' = new_section payload (clock w 0%nat).
Proof.
  intros Hn. unfold serve. destruct r as [p|sid p|sid|sid p|p|aid| |p]; cbn [route].
  - destruct (create_section_run w p) as [r ->]. cbn [fst db db_set tracksection].
    unfold inserted. rewrite lookup_insert. case_decide; [|by rewrite Hn].
    intros [= <-]. by exists p.
  - destruct (decide (model_dump_exclude_none p = ∅)) as [E|E].
    { rewrite update_section_empty by done. simpl. by rewrite Hn. }
    destruct (ObjectId_is_valid sid) eqn:Hv.
    2:{ rewrite update_section_invalid by done. simpl. by rewrite Hn. }
    destruct (tracksection (db w) !! ObjectId_of_str sid) as [dj|] eqn:Hj.
    2:{ rewrite update_section_missing by done. simpl. by rewrite Hn. }
    rewrite (update_section_found _ _ _ dj) by done. simpl.
    rewrite lookup_insert_ne by congruence. by rewrite Hn.
  - destruct (delete_section_run w sid) as [->|[Hv ->]]; simpl; [by rewrite Hn|].
    rewrite lookup_delete. case_decide; [done|by rewrite Hn].
  - destruct (ObjectId_is_valid sid) eqn:Hv.
    2:{ rewrite mark_section_invalid by done. simpl. by rewrite Hn. }
    destruct (tracksection (db w) !! ObjectId_of_str sid) as [dj|] eqn:Hj.
    2:{ rewrite mark_section_missing by done. simpl. by rewrite Hn. }
    rewrite (mark_section_found _ _ _ dj) by done.
    destruct (observation_updates dj _ _ _) as [e|u]; simpl; [by rewrite Hn|].
    rewrite lookup_insert_ne by congruence. by rewrite Hn.
  - destruct p as [sid st detail].
    destruct (ObjectId_is_valid sid) eqn:Hv.
    2:{ rewrite inspect_invalid by done. simpl. by rewrite Hn. }
    destruct (tracksection (db w) !! ObjectId_of_str sid) as [dj|] eqn:Hj.
    2:{ rewrite inspect_missing by done. simpl. by rewrite Hn. }
    rewrite (inspect_found _ _ dj) by done. simpl.
    destruct (observation_updates dj st _ _) as [e|u]; simpl; [by rewrite Hn|].
    rewrite lookup_insert_ne by congruence. by rewrite Hn.
  - by rewrite ack_alert_sections, Hn.
  - rewrite summary_run. cbn [fst]. by rewrite Hn.
  - by rewrite login_sections, Hn.
Qed.

Lemma serve_counter_ok {P : Platform} (r : request) (w : world) :
  map_Forall (λ _ d, counter_ok d = true) (tracksection (db w)) →
  map_Forall (λ _ d, counter_ok d = true) (tracksection (db (serve w r))).
Proof.
  intros Hall i d' Hd'.
  destruct (tracksection (db w) !! i) as [d|] eqn:Hd.
  - pose proof (serve_section_step r w i d Hd) as Hstep. rewrite Hd' in Hstep.
    specialize (Hall i d Hd). simpl in Hall. unfold counter_ok in *.
    destruct Hstep as [E|(E & _)]; by rewrite E.
  - by destruct (serve_new_section r w i d' Hd Hd') as (p & _ & ->).
Qed.

Lemma serve_all_counter_ok {P : Platform} (rs : list request) (w : world) :
  map_Forall (λ _ d, counter_ok d = true) (tracksection (db w)) →
  map_Forall (λ _ d, counter_ok d = true) (tracksection (db (serve_all w rs))).
Proof.
  revert w. induction rs as [|r rs IH]; intros w Hall; [done|].
  apply IH. by apply serve_counter_ok.
Qed.

Lemma empty_db_counter_ok :
  map_Forall (λ _ d, counter_ok d = true) (tracksection empty_db).
Proof. apply map_Forall_empty. Qed.

(** * Further properties of the handlers *)

(** ** Malformed identifiers *)

(** X1. A malformed id makes every handler that takes one raise 400
    "Invalid id" and leave the database as it was: the patch with at least
    one field, the deletion, the mark, the inspection and the
    acknowledgement. *)
Theorem malformed_id_is_rejected {P : Platform} (id_str : string) (w : world) :
  ObjectId_is_valid id_str = false →
  (∀ payload, payload ≠ no_fields →
     rejects (update_section id_str payload) w (HTTPException 400 "Invalid id"))
  ∧ rejects (delete_section id_str) w (HTTPException 400 "Invalid id")
  ∧ (∀ payload, rejects (mark_section id_str payload) w (HTTPException 400 "Invalid id"))
  ∧ (∀ observed detail,
       rejects (inspect {| InspectPayload.section_id := id_str;
                           InspectPayload.status := observed;
                           InspectPayload.detail := detail |}) w
         (HTTPException 400 "Invalid id"))
  ∧ rejects (ack_alert id_str) w (HTTPException 400 "Invalid id").
Proof.
  intros Hv. unfold rejects. split_and!.
  - intros payload Hp. rewrite update_section_invalid; [by eexists|..|done].
    intros E. by apply Hp, model_dump_empty.
  - unfold delete_section, mbind, M_bind, oid. rewrite Hv. by eexists.
  - intros payload. rewrite mark_section_invalid by done. by eexists.
  - intros observed detail. rewrite inspect_invalid by done. by eexists.
  - rewrite ack_alert_invalid by done. by eexists.
Qed.

Lemma malformed_id_is_rejected_witness :
  ObjectId_is_valid (Platform := demo) "S-1" = false
  ∧ rejects (delete_section (P := demo) "S-1") world2
      (HTTPException 400 "Invalid id")
  ∧ rejects (ack_alert (P := demo) "S-1") world2
      (HTTPException 400 "Invalid id").
Proof.
  split; [reflexivity|].
  destruct (malformed_id_is_rejected (P := demo) "S-1" world2 eq_refl)
    as (_ & Hdel & _ & _ & Hack).
  split; [exact Hdel|exact Hack].
Defined.

(** ** Creation *)

(** X2. [create_section] always answers. It stores one document under
    an id no section had, and leaves the other sections, the inspections, the
    alerts and the users as they were. The document has the payload's name and
    colours, status "safe", no [last_check], [persistent_faults] 0 and the
    time of the call as [created_at] and [updated_at]; the answer is that
    document with the new id as the string [id], and without [_id]. *)
Theorem create_section_stores_a_safe_section {P : Platform}
    (payload : SectionCreate.t) (w : world) :
  ∃ (i : ObjectId) (d : doc) (w' : world),
    create_section payload w = (w', inr (<["id" := VStr (ObjectId_str i)]> d))
    ∧ (<["id" := VStr (ObjectId_str i)]> d) !! "_id" = None
    ∧ tracksection (db w) !! i = None
    ∧ tracksection (db w') = <[i := d]> (tracksection (db w))
    ∧ inspection (db w') = inspection (db w)
    ∧ alert (db w') = alert (db w)
    ∧ user (db w') = user (db w)
    ∧ d !! "name" = Some (VStr (SectionCreate.name payload))
    ∧ d !! "status" = Some (VStr "safe")
    ∧ d !! "color_safe" = Some (VStr (SectionCreate.color_safe payload))
    ∧ d !! "color_faulty" = Some (VStr (SectionCreate.color_faulty payload))
    ∧ d !! "last_check" = Some VNull
    ∧ d !! "persistent_faults" = Some (VInt 0)
    ∧ d !! "created_at" = Some (VTime (clock w 0%nat))
    ∧ d !! "updated_at" = Some (VTime (clock w 0%nat)).
Proof.
  exists (ObjectId_new (dom (tracksection (db w)))), (new_section payload (clock w 0%nat)).
  exists {| db := db_set Tracksection
                   (inserted (new_section payload (clock w 0%nat)) (tracksection (db w)))
                   (db w);
            clock := λ n, clock w (1 + n)%nat |}.
  split_and!; [|done|apply inserted_fresh, ∅|done..].
  unfold create_section, mbind, M_bind, datetime_now, insert_one. simpl.
  by do 2 f_equal.
Qed.

(** ** Deletion *)

Lemma delete_section_found {P : Platform} (section_id : string) (w : world) (d : doc) :
  ObjectId_is_valid section_id = true →
  tracksection (db w) !! ObjectId_of_str section_id = Some d →
  delete_section section_id w
  = ({| db := db_set Tracksection
                (delete (ObjectId_of_str section_id) (tracksection (db w))) (db w);
        clock := clock w |},
     inr {[ "deleted" := VBool true ]}).
Proof.
  intros Hv Hd. unfold delete_section, mbind, M_bind, oid. rewrite Hv. simpl.
  unfold delete_one, delete_one_in; simpl. by rewrite Hd.
Qed.

Lemma delete_section_missing {P : Platform} (section_id : string) (w : world) :
  ObjectId_is_valid section_id = true →
  tracksection (db w) !! ObjectId_of_str section_id = None →
  delete_section section_id w = (w, inl (HTTPException 404 "Section not found")).
Proof.
  intros Hv Hd. unfold delete_section, mbind, M_bind, oid. rewrite Hv. simpl.
  unfold delete_one, delete_one_in; simpl. rewrite Hd. simpl. by destruct w as [[] ?].
Qed.

(** X3. With a well-formed id, [delete_section] removes the section of
    that id and nothing else: the other sections stay, and so does every
    inspection and every alert, those of the deleted section among them;
    where the id names no section it raises 404 "Section not found" and
    leaves the database as it was. *)
Theorem delete_section_removes_one_section {P : Platform} (section_id : string) (w : world) :
  ObjectId_is_valid section_id = true →
  match tracksection (db w) !! ObjectId_of_str section_id with
  | Some _ =>
      ∃ w' : world,
        delete_section section_id w = (w', inr {[ "deleted" := VBool true ]})
        ∧ tracksection (db w') !! ObjectId_of_str section_id = None
        ∧ (∀ j, j ≠ ObjectId_of_str section_id →
             tracksection (db w') !! j = tracksection (db w) !! j)
        ∧ inspection (db w') = inspection (db w)
        ∧ alert (db w') = alert (db w)
        ∧ user (db w') = user (db w)
  | None => rejects (delete_section section_id) w (HTTPException 404 "Section not found")
  end.
Proof.
  intros Hv. destruct (tracksection (db w) !! ObjectId_of_str section_id) as [d|] eqn:Hd.
  - rewrite (delete_section_found _ _ d) by done.
    eexists. split_and!; [reflexivity|..|done|done|done]; simpl.
    + apply lookup_delete_eq.
    + intros j Hj. by rewrite lookup_delete_ne.
  - unfold rejects. rewrite delete_section_missing by done. by eexists.
Qed.

Lemma delete_section_removes_one_section_witness :
  ObjectId_is_valid (Platform := demo) "0" = true
  ∧ ∃ w' : world,
      delete_section (P := demo) "0" world2 = (w', inr {[ "deleted" := VBool true ]})
      ∧ tracksection (db w') !! 0%N = None
      ∧ inspection (db w') = inspection (db world2)
      ∧ alert (db w') = alert (db world2).
Proof.
  split; [reflexivity|].
  pose proof (delete_section_removes_one_section (P := demo) "0" world2 eq_refl) as Hdel.
  change (ObjectId_of_str (Platform := demo) "0") with 0%N in Hdel.
  destruct (tracksection (db world2) !! 0%N) as [d|] eqn:Hd; [|by vm_compute in Hd].
  destruct Hdel as (w' & H1 & H2 & _ & H4 & H5 & _).
  exists w'. by split_and!.
Defined.

(** X4. Once a section is deleted, every handler that takes its id
    raises 404 "Section not found" and leaves the database as it was: a
    second deletion, a patch with at least one field, and an observation by
    either entry point. *)
Theorem deleted_section_is_not_found {P : Platform} (section_id : string) (w : world) (d : doc) :
  ObjectId_is_valid section_id = true →
  tracksection (db w) !! ObjectId_of_str section_id = Some d →
  let w' := serve w (DELETE_section section_id) in
  rejects (delete_section section_id) w' (HTTPException 404 "Section not found")
  ∧ (∀ payload, payload ≠ no_fields →
       rejects (update_section section_id payload) w'
         (HTTPException 404 "Section not found"))
  ∧ (∀ e observed,
       rejects (recordObservation e section_id observed) w'
         (HTTPException 404 "Section not found")).
Proof.
  intros Hv Hd w'.
  assert (tracksection (db w') !! ObjectId_of_str section_id = None) as Hgone.
  { subst w'. unfold serve. cbn [route]. rewrite (delete_section_found _ _ d) by done.
    simpl. apply lookup_delete_eq. }
  unfold rejects. split_and!.
  - rewrite delete_section_missing by done. by eexists.
  - intros payload Hp. rewrite update_section_missing; [by eexists|..|done|done].
    intros E. by apply Hp, model_dump_empty.
  - intros [|detail] observed; unfold recordObservation; cbn [observation route].
    + rewrite mark_section_missing by done. by eexists.
    + rewrite inspect_missing by done. by eexists.
Qed.

Lemma deleted_section_is_not_found_witness :
  ObjectId_is_valid (Platform := demo) "0" = true
  ∧ tracksection (db world1) !! ObjectId_of_str (Platform := demo) "0"
    = Some (new_section S1 1000)
  ∧ rejects (delete_section (P := demo) "0")
      (serve (P := demo) world1 (DELETE_section "0"))
      (HTTPException 404 "Section not found").
Proof.
  split; [reflexivity|]. split; [vm_compute; reflexivity|].
  eapply (deleted_section_is_not_found (P := demo) "0" world1 (new_section S1 1000)).
  - reflexivity.
  - vm_compute. reflexivity.
Defined.

(** ** Patches *)

Lemma model_dump_lookup (payload : SectionUpdate.t) :
  model_dump_exclude_none payload !! "name" = VStr <$> SectionUpdate.name payload
  ∧ model_dump_exclude_none payload !! "color_safe"
    = VStr <$> SectionUpdate.color_safe payload
  ∧ model_dump_exclude_none payload !! "color_faulty"
    = VStr <$> SectionUpdate.color_faulty payload.
Proof.
  unfold model_dump_exclude_none.
  destruct payload as [[?|] [?|] [?|] [?|]]; simpl; split_and!;
    rewrite ?lookup_insert_eq, ?lookup_insert_ne, ?lookup_insert_eq,
      ?lookup_insert_ne, ?lookup_insert_eq by done; done.
Qed.

(** X5. A patch with at least one field, of a stored section: each
    field the payload names is stored, [updated_at] becomes the time of the
    call, and every other field of the section stays, [last_check] and
    [persistent_faults] among them; the other sections stay, and no
    inspection, alert or user is written. The answer is the stored section. *)
Theorem update_section_sets_named_fields {P : Platform}
    (section_id : string) (payload : SectionUpdate.t) (w : world) (d : doc) :
  payload ≠ no_fields →
  ObjectId_is_valid section_id = true →
  tracksection (db w) !! ObjectId_of_str section_id = Some d →
  ∃ (w' : world) (d' : doc),
    update_section section_id payload w
    = (w', inr (section_json (ObjectId_of_str section_id) d'))
    ∧ tracksection (db w') = <[ObjectId_of_str section_id := d']> (tracksection (db w))
    ∧ inspection (db w') = inspection (db w)
    ∧ alert (db w') = alert (db w)
    ∧ user (db w') = user (db w)
    ∧ d' !! "name" = patch_field (VStr <$> SectionUpdate.name payload) (d !! "name")
    ∧ d' !! "status"
      = patch_field (VStr ∘ status_str <$> SectionUpdate.status payload) (d !! "status")
    ∧ d' !! "color_safe"
      = patch_field (VStr <$> SectionUpdate.color_safe payload) (d !! "color_safe")
    ∧ d' !! "color_faulty"
      = patch_field (VStr <$> SectionUpdate.color_faulty payload) (d !! "color_faulty")
    ∧ d' !! "updated_at" = Some (VTime (clock w 0%nat))
    ∧ ∀ k : string, k ∉ patch_keys → d' !! k = d !! k.
Proof.
  intros Hp Hv Hd.
  assert (model_dump_exclude_none payload ≠ ∅) as E
    by (intros E; by apply Hp, model_dump_empty).
  rewrite (update_section_found _ _ _ d) by done.
  destruct (model_dump_lookup payload) as (Hn & Hcs & Hcf).
  pose proof (model_dump_status payload) as Hs.
  assert (∀ (k : string) (new : option value),
            k ≠ "updated_at" → model_dump_exclude_none payload !! k = new →
            (<["updated_at" := VTime (clock w 0%nat)]> (model_dump_exclude_none payload) ∪ d)
              !! k = patch_field new (d !! k)) as Hfield.
  { intros k new Hk Hnew. rewrite lookup_union, lookup_insert_ne, Hnew by done.
    by destruct new, (d !! k). }
  eexists _, _. split_and!; [reflexivity|done..| | | | | |].
  - by apply Hfield.
  - by apply Hfield.
  - by apply Hfield.
  - by apply Hfield.
  - apply lookup_union_Some_l, lookup_insert_eq.
  - intros k Hk. unfold patch_keys in Hk.
    rewrite !not_elem_of_cons in Hk. destruct Hk as (? & ? & ? & ? & ? & _).
    apply lookup_union_r. rewrite lookup_insert_ne by done. by apply model_dump_keys.
Qed.

Lemma update_section_sets_named_fields_witness :
  set_faulty ≠ no_fields
  ∧ ObjectId_is_valid (Platform := demo) "0" = true
  ∧ tracksection (db world1) !! ObjectId_of_str (Platform := demo) "0"
    = Some (new_section S1 1000)
  ∧ ∃ (w' : world) (d' : doc),
      update_section (P := demo) "0" set_faulty world1
      = (w', inr (section_json (P := demo) 0%N d'))
      ∧ d' !! "status" = Some (VStr "faulty")
      ∧ d' !! "name" = Some (VStr "S1")
      ∧ alert (db w') = alert (db world1).
Proof.
  assert (set_faulty ≠ no_fields) as Hne by discriminate.
  split; [exact Hne|]. split; [reflexivity|]. split; [vm_compute; reflexivity|].
  destruct (update_section_sets_named_fields (P := demo) "0" set_faulty world1
              (new_section S1 1000) Hne eq_refl)
    as (w' & d' & H1 & _ & _ & H4 & _ & H6 & H7 & _).
  - vm_compute. reflexivity.
  - exists w', d'. split_and!; [exact H1|exact H7|exact H6|exact H4].
Defined.

(** ** Observations *)

Lemma observation_effect {P : Platform} (e : entry) (section_id : string) (st : Status)
    (w : world) (d u : doc) :
  ObjectId_is_valid section_id = true →
  tracksection (db w) !! ObjectId_of_str section_id = Some d →
  observation_updates d st (clock w 0%nat) (clock w (last_check_reading e)) = inr u →
  ∃ w' : world,
    recordObservation e section_id st w
    = (w', inr match e with
               | via_mark => section_json (ObjectId_of_str section_id) (u ∪ d)
               | via_inspect _ => {[ "created" := VBool true ]}
               end)
    ∧ tracksection (db w') = <[ObjectId_of_str section_id := u ∪ d]> (tracksection (db w))
    ∧ inspection (db w')
      = inserted (inspection_doc section_id st (detail_of e)
                    (clock w (inspected_at_reading e)) (clock w 0%nat))
          (inspection (db w))
    ∧ alert (db w')
      = (if bool_decide (st = faulty)
         then inserted (alert_doc section_id (alert_message e d) (clock w 0%nat))
                (alert (db w))
         else alert (db w))
    ∧ user (db w') = user (db w).
Proof.
  intros Hv Hd Hu. unfold recordObservation. destruct e as [|detail]; cbn [observation route].
  - rewrite (mark_section_found _ _ _ d) by done. cbn [MarkPayload.status].
    simpl in Hu. rewrite Hu. eexists. by split_and!.
  - rewrite (inspect_found _ _ d) by done.
    cbn [InspectPayload.status InspectPayload.section_id InspectPayload.detail].
    simpl in Hu. rewrite Hu. eexists. by split_and!.
Qed.

Lemma observation_updates_no_repeat {P : Platform} (d : doc) (st : Status)
    (now last_check : datetime) :
  repeat_fault d st = false →
  observation_updates d st now last_check
  = inr {[ "status" := VStr (status_str st);
           "last_check" := VStr (isoformat last_check);
           "updated_at" := VTime now ]}.
Proof. intros Hrep. unfold observation_updates. by rewrite Hrep. Qed.

Lemma serve_observation {P : Platform} (e : entry) (section_id : string) (st : Status)
    (w : world) :
  serve w (observation e section_id st) = (recordObservation e section_id st w).1.
Proof. reflexivity. Qed.

(** A run of faulty observations of a section that is already faulty. *)
Lemma faulty_run_on_faulty {P : Platform} (es : list entry) (section_id : string)
    (w : world) (d : doc) :
  ObjectId_is_valid section_id = true →
  tracksection (db w) !! ObjectId_of_str section_id = Some d →
  counter_ok d = true →
  d !! "status" = Some (VStr "faulty") →
  ∃ d' : doc,
    tracksection (db (serve_all w (faulty_run es section_id))) !! ObjectId_of_str section_id
    = Some d'
    ∧ d' !! "status" = Some (VStr "faulty")
    ∧ persistent_faults_of d' = persistent_faults_of d + Z.of_nat (length es)
    ∧ size (inspection (db (serve_all w (faulty_run es section_id))))
      = (size (inspection (db w)) + length es)%nat
    ∧ size (alert (db (serve_all w (faulty_run es section_id))))
      = (size (alert (db w)) + length es)%nat.
Proof.
  intros Hv. revert w d. induction es as [|e es IH]; intros w d Hd Hok Hs.
  - exists d. simpl. split_and!; [done|done|lia|lia|lia].
  - destruct (observation_updates_ok d faulty (clock w 0%nat)
                (clock w (last_check_reading e)) Hok) as [u Hu].
    destruct (observation_effect e section_id faulty w d u Hv Hd Hu)
      as (w1 & Hrun & Hsec & Hins & Hal & _).
    destruct (observation_section_after _ _ _ _ _ Hu) as (Hs1 & Hpf1 & Hok1).
    assert (serve w (observation e section_id faulty) = w1) as Hw1
      by (by rewrite serve_observation, Hrun).
    assert (tracksection (db w1) !! ObjectId_of_str section_id = Some (u ∪ d)) as Hd1
      by (rewrite Hsec; apply lookup_insert_eq).
    rewrite Hok in Hok1.
    destruct (IH w1 (u ∪ d) Hd1 Hok1 Hs1) as (d' & H1 & H2 & H3 & H4 & H5).
    exists d'. cbn [faulty_run fmap list_fmap serve_all foldl].
    fold (faulty_run es section_id). rewrite Hw1.
    change (foldl serve w1 (faulty_run es section_id))
      with (serve_all w1 (faulty_run es section_id)).
    split_and!; [done|done|..].
    + rewrite H3, Hpf1. unfold repeat_fault. rewrite Hs. simpl.
      rewrite Nat2Z.inj_succ. lia.
    + rewrite H4, Hins, inserted_size. simpl. lia.
    + rewrite H5, Hal. simpl. rewrite inserted_size. simpl. lia.
Qed.

(** X6. A run of [k] faulty observations of a stored section, [k] at
    least 1, by any entry points: the section ends faulty, its
    [persistent_faults] has grown by [k] where it was faulty before the run
    and by [k - 1] where it was not, and [k] inspections and [k] alerts have
    been added. *)
Theorem consecutive_faults_accumulate {P : Platform} (es : list entry)
    (section_id : string) (w : world) (d : doc) :
  ObjectId_is_valid section_id = true →
  tracksection (db w) !! ObjectId_of_str section_id = Some d →
  counter_ok d = true →
  es ≠ [] →
  let w' := serve_all w (faulty_run es section_id) in
  ∃ d' : doc,
    tracksection (db w') !! ObjectId_of_str section_id = Some d'
    ∧ d' !! "status" = Some (VStr "faulty")
    ∧ persistent_faults_of d'
      = persistent_faults_of d + Z.of_nat (length es)
        - (if bool_decide (d !! "status" = Some (VStr "faulty")) then 0 else 1)
    ∧ size (inspection (db w')) = (size (inspection (db w)) + length es)%nat
    ∧ size (alert (db w')) = (size (alert (db w)) + length es)%nat.
Proof.
  intros Hv Hd Hok Hne w'. destruct es as [|e es]; [done|]. clear Hne.
  destruct (observation_updates_ok d faulty (clock w 0%nat)
              (clock w (last_check_reading e)) Hok) as [u Hu].
  destruct (observation_effect e section_id faulty w d u Hv Hd Hu)
    as (w1 & Hrun & Hsec & Hins & Hal & _).
  destruct (observation_section_after _ _ _ _ _ Hu) as (Hs1 & Hpf1 & Hok1).
  assert (serve w (observation e section_id faulty) = w1) as Hw1
    by (by rewrite serve_observation, Hrun).
  assert (tracksection (db w1) !! ObjectId_of_str section_id = Some (u ∪ d)) as Hd1
    by (rewrite Hsec; apply lookup_insert_eq).
  rewrite Hok in Hok1.
  destruct (faulty_run_on_faulty es section_id w1 (u ∪ d) Hv Hd1 Hok1 Hs1)
    as (d' & H1 & H2 & H3 & H4 & H5).
  assert (w' = serve_all w1 (faulty_run es section_id)) as ->.
  { subst w'. cbn [faulty_run fmap list_fmap serve_all foldl]. by rewrite Hw1. }
  exists d'. split_and!; [done|done|..].
  - rewrite H3, Hpf1. unfold repeat_fault. simpl length. rewrite Nat2Z.inj_succ.
    rewrite andb_true_r.
    destruct (bool_decide (d !! "status" = Some (VStr "faulty"))); lia.
  - rewrite H4, Hins, inserted_size. simpl. lia.
  - rewrite H5, Hal. simpl. rewrite inserted_size. simpl. lia.
Qed.

Lemma consecutive_faults_accumulate_witness :
  ObjectId_is_valid (Platform := demo) "0" = true
  ∧ tracksection (db world1) !! ObjectId_of_str (Platform := demo) "0"
    = Some (new_section S1 1000)
  ∧ counter_ok (new_section S1 1000) = true
  ∧ [via_mark; via_inspect None; via_mark; via_mark] ≠ []
  ∧ ∃ d' : doc,
      tracksection
        (db (serve_all (P := demo) world1
               (faulty_run [via_mark; via_inspect None; via_mark; via_mark] "0")))
        !! 0%N = Some d'
      ∧ persistent_faults_of d' = 3.
Proof.
  assert ([via_mark; via_inspect None; via_mark; via_mark] ≠ []) as Hne by discriminate.
  split; [reflexivity|]. split; [vm_compute; reflexivity|]. split; [reflexivity|].
  split; [exact Hne|].
  destruct (consecutive_faults_accumulate (P := demo)
              [via_mark; via_inspect None; via_mark; via_mark] "0" world1
              (new_section S1 1000) eq_refl) as (d' & H1 & _ & H3 & _).
  - vm_compute. reflexivity.
  - reflexivity.
  - exact Hne.
  - exists d'. split; [exact H1|exact H3].
Defined.

(** X7. A safe observation breaks a run of faults: after a safe and
    then a faulty observation of a stored section, whatever its state before,
    the section is faulty and its [persistent_faults] field is what it was;
    two inspections and one alert have been added. The counter itself is not
    reset by the safe observation. *)
Theorem safe_observation_breaks_the_run {P : Platform} (e1 e2 : entry)
    (section_id : string) (w : world) (d : doc) :
  ObjectId_is_valid section_id = true →
  tracksection (db w) !! ObjectId_of_str section_id = Some d →
  let w' := serve_all w [observation e1 section_id safe; observation e2 section_id faulty] in
  ∃ d' : doc,
    tracksection (db w') !! ObjectId_of_str section_id = Some d'
    ∧ d' !! "status" = Some (VStr "faulty")
    ∧ d' !! "persistent_faults" = d !! "persistent_faults"
    ∧ size (inspection (db w')) = S (S (size (inspection (db w))))
    ∧ size (alert (db w')) = S (size (alert (db w))).
Proof.
  intros Hv Hd w'.
  assert (repeat_fault d safe = false) as Hrep1 by (unfold repeat_fault; apply andb_false_r).
  pose proof (observation_updates_no_repeat d safe (clock w 0%nat)
                (clock w (last_check_reading e1)) Hrep1) as Hu1.
  destruct (observation_effect e1 section_id safe w d _ Hv Hd Hu1)
    as (w1 & Hrun1 & Hsec1 & Hins1 & Hal1 & _).
  set (u1 := ({[ "status" := VStr (status_str safe);
                 "last_check" := VStr (isoformat (clock w (last_check_reading e1)));
                 "updated_at" := VTime (clock w 0%nat) ]} : gmap string value)) in *.
  assert (tracksection (db w1) !! ObjectId_of_str section_id = Some (u1 ∪ d)) as Hd1
    by (rewrite Hsec1; apply lookup_insert_eq).
  assert ((u1 ∪ d) !! "status" = Some (VStr "safe")) as Hs1
    by (by apply lookup_union_Some_l).
  assert (repeat_fault (u1 ∪ d) faulty = false) as Hrep2.
  { unfold repeat_fault. rewrite Hs1. by rewrite bool_decide_eq_false_2. }
  pose proof (observation_updates_no_repeat (u1 ∪ d) faulty (clock w1 0%nat)
                (clock w1 (last_check_reading e2)) Hrep2) as Hu2.
  destruct (observation_effect e2 section_id faulty w1 _ _ Hv Hd1 Hu2)
    as (w2 & Hrun2 & Hsec2 & Hins2 & Hal2 & _).
  assert (w' = w2) as ->.
  { subst w'. cbn [serve_all foldl]. rewrite (serve_observation e1), Hrun1. cbn [fst].
    by rewrite serve_observation, Hrun2. }
  eexists. split_and!.
  - rewrite Hsec2. apply lookup_insert_eq.
  - by apply lookup_union_Some_l.
  - rewrite lookup_union_r by done. by rewrite lookup_union_r.
  - by rewrite Hins2, Hins1, !inserted_size.
  - rewrite Hal2, Hal1. simpl. by rewrite inserted_size.
Qed.

Lemma safe_observation_breaks_the_run_witness :
  ObjectId_is_valid (Platform := demo) "0" = true
  ∧ tracksection (db world2) !! ObjectId_of_str (Platform := demo) "0"
    = Some (<["persistent_faults" := VInt 0]>
              ({[ "status" := VStr "faulty"; "last_check" := VStr "T1002";
                  "updated_at" := VTime 1001 ]} ∪ new_section S1 1000))
  ∧ ∃ d' : doc,
      tracksection
        (db (serve_all (P := demo) world2
               [observation via_mark "0" safe; observation via_mark "0" faulty])) !! 0%N
      = Some d'
      ∧ d' !! "status" = Some (VStr "faulty")
      ∧ d' !! "persistent_faults" = Some (VInt 0).
Proof.
  split; [reflexivity|]. split; [vm_compute; reflexivity|].
  destruct (safe_observation_breaks_the_run (P := demo) via_mark via_mark "0" world2
              (<["persistent_faults" := VInt 0]>
                 ({[ "status" := VStr "faulty"; "last_check" := VStr "T1002";
                     "updated_at" := VTime 1001 ]} ∪ new_section S1 1000)) eq_refl)
    as (d' & H1 & H2 & H3 & _).
  - vm_compute. reflexivity.
  - exists d'. split_and!; [exact H1|exact H2|]. rewrite H3. vm_compute. reflexivity.
Defined.

(** X8. A repeated fault on a section whose counter Python cannot add
    to (a string, a null, a date, an id) raises [TypeError] with the section
    and the alerts as they were. Through [mark_section] nothing at all has been
    written by then; through [inspect] the inspection record has already been
    inserted and stays. *)
Theorem repeated_fault_on_bad_counter {P : Platform} (e : entry)
    (section_id : string) (w : world) (d : doc) :
  ObjectId_is_valid section_id = true →
  tracksection (db w) !! ObjectId_of_str section_id = Some d →
  d !! "status" = Some (VStr "faulty") →
  counter_ok d = false →
  ∃ w' : world,
    recordObservation e section_id faulty w = (w', inl TypeError)
    ∧ tracksection (db w') = tracksection (db w)
    ∧ alert (db w') = alert (db w)
    ∧ user (db w') = user (db w)
    ∧ inspection (db w')
      = match e with
        | via_mark => inspection (db w)
        | via_inspect detail =>
            inserted (inspection_doc section_id faulty (opt_str detail)
                        (clock w 0%nat) (clock w 0%nat))
              (inspection (db w))
        end.
Proof.
  intros Hv Hd Hs Hbad.
  assert (∀ now last_check : datetime,
            observation_updates d faulty now last_check = inl TypeError) as Hu.
  { intros now last_check. unfold observation_updates, repeat_fault. rewrite Hs. simpl.
    unfold counter_ok in Hbad. unfold get.
    by destruct (d !! "persistent_faults") as [[]|]. }
  unfold recordObservation. destruct e as [|detail]; cbn [observation route].
  - rewrite (mark_section_found _ _ _ d) by done. cbn [MarkPayload.status].
    rewrite Hu. eexists. by split_and!.
  - rewrite (inspect_found _ _ d) by done.
    cbn [InspectPayload.status InspectPayload.section_id InspectPayload.detail].
    rewrite Hu. eexists. by split_and!.
Qed.

Lemma repeated_fault_on_bad_counter_witness :
  ObjectId_is_valid (Platform := demo) "0" = true
  ∧ tracksection (db world4) !! ObjectId_of_str (Platform := demo) "0"
    = Some {[ "name" := VStr "A"; "status" := VStr "faulty";
              "persistent_faults" := VStr "many" ]}
  ∧ ∃ w' : world,
      recordObservation (P := demo) (via_inspect None) "0" faulty world4 = (w', inl TypeError)
      ∧ tracksection (db w') = tracksection (db world4)
      ∧ size (inspection (db w')) = 1%nat.
Proof.
  split; [reflexivity|]. split; [vm_compute; reflexivity|].
  destruct (repeated_fault_on_bad_counter (P := demo) (via_inspect None) "0" world4
              {[ "name" := VStr "A"; "status" := VStr "faulty";
                 "persistent_faults" := VStr "many" ]} eq_refl)
    as (w' & H1 & H2 & _ & _ & H5).
  - vm_compute. reflexivity.
  - vm_compute. reflexivity.
  - vm_compute. reflexivity.
  - exists w'. split_and!; [exact H1|exact H2|]. rewrite H5. vm_compute. reflexivity.
Defined.

(** X9. One observation stamps all it writes with one reading of the
    clock, the first of the request: the section's [updated_at], the
    inspection's [created_at] and, where there is one, the alert's
    [created_at]. Through [inspect] the section's [last_check] and the
    inspection's [inspected_at] are that same reading too, as text; through
    [mark_section] they are the second and the third reading. *)
Theorem observation_timestamps {P : Platform} (e : entry) (section_id : string)
    (observed : Status) (w : world) (d : doc) :
  ObjectId_is_valid section_id = true →
  tracksection (db w) !! ObjectId_of_str section_id = Some d →
  counter_ok d = true →
  ∃ (w' : world) (r d' record : doc) (j : ObjectId),
    recordObservation e section_id observed w = (w', inr r)
    ∧ tracksection (db w') !! ObjectId_of_str section_id = Some d'
    ∧ inspection (db w) !! j = None
    ∧ inspection (db w') = <[j := record]> (inspection (db w))
    ∧ d' !! "updated_at" = Some (VTime (clock w 0%nat))
    ∧ record !! "created_at" = Some (VTime (clock w 0%nat))
    ∧ (∀ (k : ObjectId) (a : doc),
         alert (db w) !! k = None → alert (db w') !! k = Some a →
         a !! "created_at" = Some (VTime (clock w 0%nat)))
    ∧ d' !! "last_check"
      = Some (VStr (isoformat (clock w match e with via_mark => 1 | via_inspect _ => 0 end%nat)))
    ∧ record !! "inspected_at"
      = Some (VStr (isoformat (clock w match e with via_mark => 2 | via_inspect _ => 0 end%nat))).
Proof.
  intros Hv Hd Hok.
  destruct (observation_updates_ok d observed (clock w 0%nat)
              (clock w (last_check_reading e)) Hok) as [u Hu].
  destruct (observation_effect e section_id observed w d u Hv Hd Hu)
    as (w' & Hrun & Hsec & Hins & Hal & _).
  destruct (observation_updates_fields _ _ _ _ _ Hu) as (_ & Hlc & Hup & _).
  eexists w', _, (u ∪ d), _, _. split_and!; [exact Hrun|..].
  - rewrite Hsec. apply lookup_insert_eq.
  - apply inserted_fresh, ∅.
  - exact Hins.
  - by apply lookup_union_Some_l.
  - done.
  - intros k a Hk Ha. rewrite Hal in Ha. destruct (bool_decide (observed = faulty)).
    + unfold inserted in Ha. rewrite lookup_insert in Ha. case_decide; [|congruence].
      by injection Ha as <-.
    + congruence.
  - apply lookup_union_Some_l. rewrite Hlc. by destruct e.
  - by destruct e.
Qed.

Lemma observation_timestamps_witness :
  ObjectId_is_valid (Platform := demo) "0" = true
  ∧ tracksection (db world1) !! ObjectId_of_str (Platform := demo) "0"
    = Some (new_section S1 1000)
  ∧ counter_ok (new_section S1 1000) = true
  ∧ ∃ (w' : world) (d' : doc),
      tracksection (db w') !! 0%N = Some d'
      ∧ w' = (recordObservation (P := demo) via_mark "0" faulty world1).1
      ∧ d' !! "updated_at" = Some (VTime 1001)
      ∧ d' !! "last_check" = Some (VStr "T1002").
Proof.
  split; [reflexivity|]. split; [vm_compute; reflexivity|]. split; [reflexivity|].
  destruct (observation_timestamps (P := demo) via_mark "0" faulty world1
              (new_section S1 1000) eq_refl)
    as (w' & r & d' & record & j & H1 & H2 & _ & _ & H5 & _ & _ & H8 & _).
  - vm_compute. reflexivity.
  - reflexivity.
  - exists w', d'. split_and!; [exact H2|by rewrite H1|exact H5|exact H8].
Defined.

(** X10. What the records of an observation say. The inspection record
    carries the request's section id and status, and as [detail] the text
    "manual-mark" through [mark_section] and the payload's detail (null where
    there is none) through [inspect]. The alert of a faulty observation says
    "Fault detected at section ", the name the section had before the
    observation (nothing where it has no name), and "." through
    [mark_section], " (auto)" through [inspect]. *)
Theorem observation_records {P : Platform} (e : entry) (section_id : string)
    (observed : Status) (w : world) (d : doc) :
  ObjectId_is_valid section_id = true →
  tracksection (db w) !! ObjectId_of_str section_id = Some d →
  counter_ok d = true →
  ∃ (w' : world) (r record : doc),
    recordObservation e section_id observed w = (w', inr r)
    ∧ inspection (db w') = inserted record (inspection (db w))
    ∧ record !! "section_id" = Some (VStr section_id)
    ∧ record !! "status" = Some (VStr (status_str observed))
    ∧ record !! "detail"
      = Some match e with
             | via_mark => VStr "manual-mark"
             | via_inspect (Some text) => VStr text
             | via_inspect None => VNull
             end
    ∧ (observed = faulty →
       ∃ a : doc,
         alert (db w') = inserted a (alert (db w))
         ∧ a !! "message"
           = Some (VStr ("Fault detected at section "
                         +:+ match d !! "name" with Some v => py_str v | None => "" end
                         +:+ match e with via_mark => "." | via_inspect _ => " (auto)" end))).
Proof.
  intros Hv Hd Hok.
  destruct (observation_updates_ok d observed (clock w 0%nat)
              (clock w (last_check_reading e)) Hok) as [u Hu].
  destruct (observation_effect e section_id observed w d u Hv Hd Hu)
    as (w' & Hrun & _ & Hins & Hal & _).
  eexists w', _, _. split_and!; [exact Hrun|exact Hins|done|done|..].
  - by destruct e as [|[text|]].
  - intros ->. simpl in Hal. eexists. split; [exact Hal|].
    unfold alert_doc, alert_message, get.
    rewrite lookup_insert_ne, lookup_insert_eq by done.
    by destruct (d !! "name").
Qed.

Lemma observation_records_witness :
  ObjectId_is_valid (Platform := demo) "0" = true
  ∧ tracksection (db world1) !! ObjectId_of_str (Platform := demo) "0"
    = Some (new_section S1 1000)
  ∧ counter_ok (new_section S1 1000) = true
  ∧ ∃ (w' : world) (a : doc),
      w' = (recordObservation (P := demo) (via_inspect None) "0" faulty world1).1
      ∧ alert (db w') = inserted (P := demo) a (alert (db world1))
      ∧ a !! "message" = Some (VStr "Fault detected at section S1 (auto)").
Proof.
  split; [reflexivity|]. split; [vm_compute; reflexivity|]. split; [reflexivity|].
  destruct (observation_records (P := demo) (via_inspect None) "0" faulty world1
              (new_section S1 1000) eq_refl)
    as (w' & r & record & H1 & _ & _ & _ & _ & H6).
  - vm_compute. reflexivity.
  - reflexivity.
  - destruct (H6 eq_refl) as (a & Ha & Hm).
    exists w', a. split_and!; [by rewrite H1|exact Ha|exact Hm].
Defined.

(** X11. What an observation leaves alone: every field of the observed
    section but [status], [last_check], [updated_at] and [persistent_faults]
    (so its name, its colours and its [created_at]), every other section,
    every inspection and every alert that was there, and the users. *)
Theorem observation_frame {P : Platform} (e : entry) (section_id : string)
    (observed : Status) (w : world) (d : doc) :
  ObjectId_is_valid section_id = true →
  tracksection (db w) !! ObjectId_of_str section_id = Some d →
  counter_ok d = true →
  ∃ (w' : world) (r d' : doc),
    recordObservation e section_id observed w = (w', inr r)
    ∧ tracksection (db w') !! ObjectId_of_str section_id = Some d'
    ∧ (∀ k : string, k ∉ observation_keys → d' !! k = d !! k)
    ∧ (∀ j : ObjectId, j ≠ ObjectId_of_str section_id →
         tracksection (db w') !! j = tracksection (db w) !! j)
    ∧ (∀ (j : ObjectId) (record : doc),
         inspection (db w) !! j = Some record → inspection (db w') !! j = Some record)
    ∧ (∀ (j : ObjectId) (a : doc),
         alert (db w) !! j = Some a → alert (db w') !! j = Some a)
    ∧ user (db w') = user (db w).
Proof.
  intros Hv Hd Hok.
  destruct (observation_updates_ok d observed (clock w 0%nat)
              (clock w (last_check_reading e)) Hok) as [u Hu].
  destruct (observation_effect e section_id observed w d u Hv Hd Hu)
    as (w' & Hrun & Hsec & Hins & Hal & Hus).
  destruct (observation_updates_fields _ _ _ _ _ Hu) as (_ & _ & _ & Hpf).
  eexists w', _, (u ∪ d). split_and!; [exact Hrun|..|exact Hus].
  - rewrite Hsec. apply lookup_insert_eq.
  - intros k Hk. unfold observation_keys in Hk.
    rewrite !not_elem_of_cons in Hk. destruct Hk as (? & ? & ? & ? & _).
    apply lookup_union_r. unfold observation_updates in Hu.
    destruct (repeat_fault d observed).
    + destruct (py_add1 _); [done|]. injection Hu as <-.
      rewrite !lookup_insert_ne by done. by apply lookup_singleton_ne.
    + injection Hu as <-.
      rewrite !lookup_insert_ne by done. by apply lookup_singleton_ne.
  - intros j Hj. rewrite Hsec. by rewrite lookup_insert_ne.
  - intros j record Hj. rewrite Hins. by apply inserted_lookup_old.
  - intros j a Hj. rewrite Hal. destruct (bool_decide (observed = faulty)); [|done].
    by apply inserted_lookup_old.
Qed.

Lemma observation_frame_witness :
  ObjectId_is_valid (Platform := demo) "0" = true
  ∧ tracksection (db world1) !! ObjectId_of_str (Platform := demo) "0"
    = Some (new_section S1 1000)
  ∧ counter_ok (new_section S1 1000) = true
  ∧ ∃ (w' : world) (d' : doc),
      w' = (recordObservation (P := demo) via_mark "0" faulty world1).1
      ∧ tracksection (db w') !! 0%N = Some d'
      ∧ d' !! "name" = Some (VStr "S1")
      ∧ d' !! "created_at" = Some (VTime 1000).
Proof.
  split; [reflexivity|]. split; [vm_compute; reflexivity|]. split; [reflexivity|].
  destruct (observation_frame (P := demo) via_mark "0" faulty world1
              (new_section S1 1000) eq_refl)
    as (w' & r & d' & H1 & H2 & H3 & _).
  - vm_compute. reflexivity.
  - reflexivity.
  - exists w', d'. split_and!; [by rewrite H1|exact H2|..].
    + rewrite H3; [reflexivity|]. unfold observation_keys.
      repeat (apply not_elem_of_cons; split; [done|]). apply not_elem_of_nil.
    + rewrite H3; [reflexivity|]. unfold observation_keys.
      repeat (apply not_elem_of_cons; split; [done|]). apply not_elem_of_nil.
Defined.

(** ** Scans of a collection *)

Lemma select_Some (q : query) (c : collection) (i : ObjectId) :
  select q c = Some i → ∃ d : doc, c !! i = Some d ∧ Is_true (matches q i d).
Proof.
  assert (∀ q',
    (λ hit : nat * (N * gmap string value), hit.2.1)
      <$> list_find (λ kv : N * gmap string value, Is_true (matches q' kv.1 kv.2))
            (map_to_list c) = Some i →
    ∃ d : doc, c !! i = Some d ∧ Is_true (matches q' i d)) as Hscan.
  { intros q' Hf. apply fmap_Some in Hf as ([n [j d]] & Hf & ->).
    apply list_find_Some in Hf as (Hl & Hm & _). simpl in *.
    exists d. split; [|done]. by apply elem_of_map_to_list, list_elem_of_lookup_2 with n. }
  destruct q as [|j|k v|k n];
    [apply (Hscan QAll)| |apply (Hscan (QEq k v))|apply (Hscan (QGte k n))].
  simpl. destruct (c !! j) as [d|] eqn:E; [|done]. intros [= <-]. exists d.
  split; [done|]. by apply bool_decide_spec.
Qed.

Lemma select_scan_None (q : query) (c : collection) :
  (∀ j, q ≠ QId j) → select q c = None →
  ∀ (i : ObjectId) (d : doc), c !! i = Some d → ¬ Is_true (matches q i d).
Proof.
  intros Hq Hsel i d Hd.
  assert (list_find (λ kv : N * gmap string value, Is_true (matches q kv.1 kv.2))
            (map_to_list c) = None) as Hf.
  { destruct q; simpl in Hsel; try (by apply fmap_None in Hsel). by destruct (Hq i0). }
  rewrite list_find_None, Forall_forall in Hf.
  apply (Hf (i, d)). by apply elem_of_map_to_list.
Qed.

Lemma find_one_in_Some (q : query) (c : collection) (x : doc) :
  find_one_in q c = Some x →
  ∃ (i : ObjectId) (d : doc),
    select q c = Some i ∧ c !! i = Some d ∧ x = with_id i d ∧ Is_true (matches q i d).
Proof.
  unfold find_one_in. destruct (select q c) as [i|] eqn:Hsel; [|done]. simpl.
  destruct (select_Some q c i Hsel) as (d & Hd & Hm). rewrite Hd. simpl.
  intros [= <-]. by exists i, d.
Qed.

Lemma find_one_in_None (q : query) (c : collection) :
  find_one_in q c = None → select q c = None.
Proof.
  unfold find_one_in. destruct (select q c) as [i|] eqn:Hsel; [|done]. simpl.
  destruct (select_Some q c i Hsel) as (d & Hd & _). by rewrite Hd.
Qed.

(** ** What [login] does *)

Lemma login_run {P : Platform} (payload : LoginPayload.t) (w : world) :
  login payload w =
    match select (QEq "email" (VStr (LoginPayload.email payload))) (user (db w)) with
    | None =>
        ({| db := db_set User (inserted (user_doc payload (clock w 0%nat)) (user (db w))) (db w);
            clock := λ n, clock w (1 + n)%nat |}, inr (login_response payload))
    | Some i =>
        ({| db := db_set User
                    (alter (λ u : gmap string value,
                              {[ "token" := VStr (login_token (LoginPayload.email payload)) ]}
                              ∪ u) i (user (db w))) (db w);
            clock := clock w |}, inr (login_response payload))
    end.
Proof.
  unfold login, mbind, M_bind. simpl.
  destruct (find_one_in (QEq "email" (VStr (LoginPayload.email payload))) (user (db w)))
    as [x|] eqn:Hfind.
  - destruct (find_one_in_Some _ _ _ Hfind) as (i & u & Hsel & Hu & -> & _).
    rewrite falsy_with_id. simpl. unfold with_id at 1. rewrite lookup_insert_eq.
    simpl in Hsel. rewrite Hsel.
    unfold update_one, update_one_in. simpl. by rewrite Hu.
  - apply find_one_in_None in Hfind. simpl in Hfind. by rewrite Hfind.
Qed.

(** ** Every request, collection by collection *)

Lemma observation_cases {P : Platform} (e : entry) (section_id : string) (st : Status)
    (w : world) :
  let w' := (recordObservation e section_id st w).1 in
  db w' = db w
  ∨ (ObjectId_is_valid section_id = true
     ∧ ∃ d : doc,
         tracksection (db w) !! ObjectId_of_str section_id = Some d
         ∧ ((tracksection (db w') = tracksection (db w)
             ∧ inspection (db w')
               = inserted (inspection_doc section_id st (detail_of e)
                             (clock w (inspected_at_reading e)) (clock w 0%nat))
                   (inspection (db w))
             ∧ alert (db w') = alert (db w)
             ∧ user (db w') = user (db w))
            ∨ ∃ u : doc,
                observation_updates d st (clock w 0%nat) (clock w (last_check_reading e))
                = inr u
                ∧ tracksection (db w')
                  = <[ObjectId_of_str section_id := u ∪ d]> (tracksection (db w))
                ∧ inspection (db w')
                  = inserted (inspection_doc section_id st (detail_of e)
                                (clock w (inspected_at_reading e)) (clock w 0%nat))
                      (inspection (db w))
                ∧ alert (db w')
                  = (if bool_decide (st = faulty)
                     then inserted (alert_doc section_id (alert_message e d) (clock w 0%nat))
                            (alert (db w))
                     else alert (db w))
                ∧ user (db w') = user (db w))).
Proof.
  intros w'. subst w'.
  destruct (ObjectId_is_valid section_id) eqn:Hv.
  2:{ left. unfold recordObservation. destruct e; cbn [observation route].
      - by rewrite mark_section_invalid.
      - by rewrite inspect_invalid. }
  destruct (tracksection (db w) !! ObjectId_of_str section_id) as [d|] eqn:Hd.
  2:{ left. unfold recordObservation. destruct e; cbn [observation route].
      - by rewrite mark_section_missing.
      - by rewrite inspect_missing. }
  destruct (observation_updates d st (clock w 0%nat) (clock w (last_check_reading e)))
    as [err|u] eqn:Hu.
  - unfold recordObservation. destruct e as [|detail]; cbn [observation route].
    + left. rewrite (mark_section_found _ _ _ d) by done. cbn [MarkPayload.status].
      simpl in Hu. by rewrite Hu.
    + right. split; [done|]. exists d. split; [done|]. left.
      rewrite (inspect_found _ _ d) by done.
      cbn [InspectPayload.status InspectPayload.section_id InspectPayload.detail].
      simpl in Hu. by rewrite Hu.
  - right. split; [done|]. exists d. split; [done|]. right. exists u.
    destruct (observation_effect e section_id st w d u Hv Hd Hu)
      as (w' & -> & H1 & H2 & H3 & H4). by split_and!.
Qed.

Lemma ack_alert_cases {P : Platform} (alert_id : string) (w : world) :
  let w' := (ack_alert alert_id w).1 in
  db w' = db w
  ∨ ∃ a : doc,
      alert (db w) !! ObjectId_of_str alert_id = Some a
      ∧ db w' = db_set Alert
                  (<[ObjectId_of_str alert_id := {[ "acknowledged" := VBool true ]} ∪ a]>
                     (alert (db w))) (db w).
Proof.
  intros w'. subst w'.
  destruct (ObjectId_is_valid alert_id) eqn:Hv; [|left; by rewrite ack_alert_invalid].
  destruct (alert (db w) !! ObjectId_of_str alert_id) as [a|] eqn:Ha.
  - right. exists a. split; [done|]. by rewrite (ack_alert_found _ _ a).
  - left. by rewrite ack_alert_missing.
Qed.

Lemma update_section_cases {P : Platform} (section_id : string) (payload : SectionUpdate.t)
    (w : world) :
  let w' := (update_section section_id payload w).1 in
  db w' = db w
  ∨ ∃ d : doc,
      tracksection (db w) !! ObjectId_of_str section_id = Some d
      ∧ db w' = db_set Tracksection
                  (<[ObjectId_of_str section_id :=
                       <["updated_at" := VTime (clock w 0%nat)]>
                         (model_dump_exclude_none payload) ∪ d]> (tracksection (db w)))
                  (db w).
Proof.
  intros w'. subst w'.
  destruct (decide (model_dump_exclude_none payload = ∅)) as [E|E].
  { left. by rewrite update_section_empty. }
  destruct (ObjectId_is_valid section_id) eqn:Hv.
  2:{ left. by rewrite update_section_invalid. }
  destruct (tracksection (db w) !! ObjectId_of_str section_id) as [d|] eqn:Hd.
  - right. exists d. split; [done|]. by rewrite (update_section_found _ _ _ d).
  - left. by rewrite update_section_missing.
Qed.

Lemma delete_section_cases {P : Platform} (section_id : string) (w : world) :
  let w' := (delete_section section_id w).1 in
  db w' = db w
  ∨ db w' = db_set Tracksection
              (delete (ObjectId_of_str section_id) (tracksection (db w))) (db w).
Proof.
  intros w'. subst w'. destruct (delete_section_run w section_id) as [->|[_ ->]]; auto.
Qed.

Lemma login_cases {P : Platform} (payload : LoginPayload.t) (w : world) :
  let w' := (login payload w).1 in
  (db w' = db_set User (inserted (user_doc payload (clock w 0%nat)) (user (db w))) (db w)
   ∧ ¬ known_email (LoginPayload.email payload) (user (db w)))
  ∨ ∃ (i : ObjectId) (u : doc),
      user (db w) !! i = Some u
      ∧ u !! "email" = Some (VStr (LoginPayload.email payload))
      ∧ db w' = db_set User
                  (<[i := {[ "token" := VStr (login_token (LoginPayload.email payload)) ]}
                          ∪ u]> (user (db w))) (db w).
Proof.
  intros w'. subst w'. rewrite login_run.
  destruct (select _ (user (db w))) as [i|] eqn:Hsel.
  - right. destruct (select_Some _ _ _ Hsel) as (u & Hu & Hm). exists i, u.
    split; [done|]. split.
    + unfold matches in Hm. apply bool_decide_spec in Hm.
      by rewrite with_id_lookup_ne in Hm.
    + simpl. do 2 f_equal. apply map_eq. intros j.
      rewrite lookup_alter, lookup_insert. case_decide; subst; [by rewrite Hu|done].
  - left. split; [done|]. intros (i & u & Hu & He).
    assert (∀ j, QEq "email" (VStr (LoginPayload.email payload)) ≠ QId j) as Hq by done.
    apply (select_scan_None _ _ Hq Hsel i u Hu).
    unfold matches. apply bool_decide_spec. by rewrite with_id_lookup_ne.
Qed.

Lemma database_eq (b b' : database) :
  tracksection b = tracksection b' → inspection b = inspection b' →
  alert b = alert b' → user b = user b' → b = b'.
Proof. destruct b, b'. simpl. by intros -> -> -> ->. Qed.

Lemma observation_writes {P : Platform} (e : entry) (section_id : string) (st : Status)
    (w : world) :
  writes w (db (recordObservation e section_id st w).1).
Proof.
  destruct (observation_cases e section_id st w)
    as [E|(Hv & d & Hd & [(H1 & H2 & H3 & H4)|(u & Hu & H1 & H2 & H3 & H4)])].
  - rewrite E. apply writes_nothing.
  - match goal with |- writes w ?b =>
      assert (b = db_set Inspection
                    (inserted (inspection_doc section_id st (detail_of e)
                                 (clock w (inspected_at_reading e)) (clock w 0%nat))
                       (inspection (db w))) (db w)) as ->
        by (by apply database_eq)
    end.
    by apply writes_inspection_only.
  - match goal with |- writes w ?b =>
      assert (b = {| tracksection :=
                       <[ObjectId_of_str section_id := u ∪ d]> (tracksection (db w));
                     inspection :=
                       inserted (inspection_doc section_id st (detail_of e)
                                   (clock w (inspected_at_reading e)) (clock w 0%nat))
                         (inspection (db w));
                     alert :=
                       (if bool_decide (st = faulty)
                        then inserted (alert_doc section_id (alert_message e d)
                                         (clock w 0%nat)) (alert (db w))
                        else alert (db w));
                     user := user (db w) |}) as ->
        by (by apply database_eq)
    end.
    by apply writes_observation.
Qed.

Lemma serve_writes {P : Platform} (r : request) (w : world) : writes w (db (serve w r)).
Proof.
  unfold serve. destruct r as [p|sid p|sid|sid p|p|aid| |p]; cbn [route].
  - destruct (create_section_run w p) as [r ->]. apply writes_section.
  - destruct (update_section_cases sid p w) as [->|(d & Hd & ->)];
      [apply writes_nothing|by apply writes_patch].
  - destruct (delete_section_cases sid w) as [->| ->];
      [apply writes_nothing|apply writes_deletion].
  - destruct p as [st]. apply (observation_writes via_mark sid st w).
  - destruct p as [sid st detail]. apply (observation_writes (via_inspect detail) sid st w).
  - destruct (ack_alert_cases aid w) as [->|(a & Ha & ->)];
      [apply writes_nothing|by apply writes_acknowledgement].
  - rewrite summary_run. apply writes_nothing.
  - destruct (login_cases p w) as [[-> Hn]|(i & u & Hu & He & ->)];
      [by apply writes_user|by apply writes_token].
Qed.
